(** * TaskFlow web client (src/app.js): normalization, derived views, requests

    A shallow embedding of the data and view logic of the single-page task
    manager in [src/app.js], and the properties its specification states
    about it.

    Layout of the development:
    - [JS]: the part of the JavaScript runtime the program calls (numbers
      with NaN, truthiness, [String], [parseInt], [trim], [toLowerCase],
      [includes], string comparison, [Date], [Array.prototype.sort]);
    - the records of the program: wire task, client task, form, payload,
      categories;
    - the functions of [src/app.js], under their own names;
    - the view model and the browser state, threaded explicitly;
    - the vocabulary of the properties and sample data;
    - the rest of the program: session and routes, theme, loading, the task
      dialog;
    - the theorems: first those on normalization, the derived view, the
      counts, "soon", requests and mutations, then further properties of the
      same code (X1 to X23).

    Typing.  JavaScript objects are untyped; the records below type each
    property by the API contract (title is a string; desc, priority, status
    and due_date are a string, null or absent; category_id is a number or
    null).  The two properties that [normalizeTask] coerces ([id] through
    [String], [created_at] through [new Date]) keep the general type
    [JS.value], because the coercions accept any value.  Strings are
    sequences of 8-bit characters, integers stand for the JavaScript numbers
    that hold one exactly.

    The clock and the network are arguments: [now] is the time the clock
    reads (milliseconds since the epoch), [parse] is the [Date.parse] of the
    runtime, [fetch] answers a request. *)

From stdpp Require Import base strings gmap list pretty.
From Stdlib Require Import Ascii ZArith QArith Sorting.Sorted Sorting.Permutation Lia.

Open Scope Z_scope.

(* ================================================================= *)
(** ** The JavaScript runtime, as far as the program uses it *)

Module JS.

(** A number that is an integer, or NaN. *)
Inductive num : Type :=
  | NaN
  | Int (z : Z).

(** The primitive values a task property holds. *)
Inductive value : Type :=
  | Undefined
  | Null
  | Number (n : num)
  | Str (s : string).

(** [a - b] on numbers: NaN as soon as one side is. *)
Definition sub (a b : num) : num :=
  match a, b with
  | Int x, Int y => Int (x - y)
  | _, _ => NaN
  end.

(** Truthiness of a string-or-absent property: null, undefined and the empty
    string are falsy. *)
Definition truthy (o : option string) : bool :=
  match o with
  | Some s => negb (String.eqb s "")
  | None => false
  end.

(** [o || d] where [o] is a string or absent and [d] a string. *)
Definition or_else (o : option string) (d : string) : string :=
  match o with
  | Some s => if String.eqb s "" then d else s
  | None => d
  end.

(** [s || null] for a string [s]. *)
Definition or_null (s : string) : option string :=
  if String.eqb s "" then None else Some s.

(** Truthiness of a number-or-null property: null and 0 are falsy. *)
Definition truthy_num (o : option Z) : bool :=
  match o with
  | Some n => negb (n =? 0)
  | None => false
  end.

(** A number-or-null property as a value. *)
Definition of_num (o : option Z) : value :=
  match o with
  | Some n => Number (Int n)
  | None => Null
  end.

(** A string-or-null property as a value. *)
Definition of_str (o : option string) : value :=
  match o with
  | Some s => Str s
  | None => Null
  end.

(** [Number.MAX_SAFE_INTEGER]: up to it, in absolute value, every integer is
    a number of its own (the safe integers). *)
Definition MAX_SAFE_INTEGER : Z := 2 ^ 53 - 1.

(** [String(n)] for a number: decimal digits, or the word NaN.  The digits
    are those of the runtime for the safe integers; from 10^21 on the
    runtime writes an exponent instead, so what is proved from the digits is
    stated for safe integers. *)
Definition num_to_string (n : num) : string :=
  match n with
  | NaN => "NaN"
  | Int z => pretty z
  end.

(** [String(v)]. *)
Definition to_string (v : value) : string :=
  match v with
  | Undefined => "undefined"
  | Null => "null"
  | Number n => num_to_string n
  | Str s => s
  end.

(** *** Characters and strings *)

Definition code (c : ascii) : Z := Z.of_nat (nat_of_ascii c).

(** White space of [trim] and [parseInt]: TAB, LF, VT, FF, CR, space (the
    white space beyond ASCII is not modelled). *)
Definition is_space (c : ascii) : bool :=
  let n := code c in ((9 <=? n) && (n <=? 13)) || (n =? 32).

Fixpoint trimStart (s : string) : string :=
  match s with
  | String c s' => if is_space c then trimStart s' else s
  | EmptyString => EmptyString
  end.

Fixpoint trimEnd (s : string) : string :=
  match s with
  | EmptyString => EmptyString
  | String c s' =>
      match trimEnd s' with
      | EmptyString => if is_space c then EmptyString else String c EmptyString
      | r => String c r
      end
  end.

(** [s.trim()]. *)
Definition trim (s : string) : string := trimEnd (trimStart s).

Definition lower (c : ascii) : ascii :=
  let n := code c in
  if (65 <=? n) && (n <=? 90) then ascii_of_nat (Z.to_nat (n + 32)) else c.

(** [s.toLowerCase()], on the letters A to Z. *)
Fixpoint toLowerCase (s : string) : string :=
  match s with
  | EmptyString => EmptyString
  | String c s' => String (lower c) (toLowerCase s')
  end.

(** [s.includes(q)]: [q] occurs in [s] as a contiguous substring. *)
Fixpoint includes (s q : string) : bool :=
  String.prefix q s ||
  match s with
  | EmptyString => false
  | String _ s' => includes s' q
  end.

(** [a < b] on strings: code-unit order. *)
Definition str_lt (a b : string) : bool :=
  match String.compare a b with
  | Lt => true
  | _ => false
  end.

(** [a.localeCompare(b)], negative, zero or positive, as the code-unit
    order.  The runtime compares by the collation of its locale, which is
    this order on two dates written [YYYY-MM-DD] and another one elsewhere
    (a small letter before a capital one); what is proved of the order of
    due dates is stated for strings of that form. *)
Definition localeCompare (a b : string) : num :=
  match String.compare a b with
  | Lt => Int (-1)
  | Eq => Int 0
  | Gt => Int 1
  end.

(** *** parseInt *)

(** The value of [c] as a digit of the given radix. *)
Definition digit (radix : Z) (c : ascii) : option Z :=
  let n := code c in
  let v := if (48 <=? n) && (n <=? 57) then n - 48
           else if (97 <=? n) && (n <=? 122) then n - 87
           else if (65 <=? n) && (n <=? 90) then n - 55
           else radix in
  if v <? radix then Some v else None.

(** The number spelled by the longest prefix of digits; [acc] is [None] until
    a digit has been read. *)
Fixpoint digits (radix : Z) (acc : option Z) (s : string) : option Z :=
  match s with
  | EmptyString => acc
  | String c s' =>
      match digit radix c with
      | Some d => digits radix (Some (default 0 acc * radix + d)) s'
      | None => acc
      end
  end.

(** [parseInt(s)] without a radix: leading white space, a sign, an optional
    0x prefix, then digits; NaN when there is none. *)
Definition parseInt (s : string) : num :=
  let s := trimStart s in
  let '(sign, s) :=
    match s with
    | String "-" r => (-1, r)
    | String "+" r => (1, r)
    | _ => (1, s)
    end in
  let '(radix, s) :=
    match s with
    | String "0" (String "x" r) => (16, r)
    | String "0" (String "X" r) => (16, r)
    | _ => (10, s)
    end in
  match digits radix None s with
  | Some n => Int (sign * n)
  | None => NaN
  end.

(** *** Dates *)

Definition msPerDay : Z := 86400000.

(** Days from 1970-01-01 to the given day of the proleptic Gregorian
    calendar. *)
Definition daysFromCivil (y m d : Z) : Z :=
  let y := if m <=? 2 then y - 1 else y in
  let era := y / 400 in
  let yoe := y - era * 400 in
  let doy := (153 * (if 2 <? m then m - 3 else m + 9) + 2) / 5 + d - 1 in
  let doe := yoe * 365 + yoe / 4 - yoe / 100 + doy in
  era * 146097 + doe - 719468.

(** The year, month and day of a day number. *)
Definition civilFromDays (z : Z) : Z * Z * Z :=
  let z := z + 719468 in
  let era := z / 146097 in
  let doe := z - era * 146097 in
  let yoe := (doe - doe / 1460 + doe / 36524 - doe / 146096) / 365 in
  let doy := doe - (365 * yoe + yoe / 4 - yoe / 100) in
  let mp := (5 * doy + 2) / 153 in
  let d := doy - (153 * mp + 2) / 5 + 1 in
  let m := if mp <? 10 then mp + 3 else mp - 9 in
  (if m <=? 2 then yoe + era * 400 + 1 else yoe + era * 400, m, d).

Definition isLeap (y : Z) : bool :=
  ((y mod 4 =? 0) && negb (y mod 100 =? 0)) || (y mod 400 =? 0).

Definition daysInMonth (y m : Z) : Z :=
  if m =? 2 then (if isLeap y then 29 else 28)
  else if (m =? 4) || (m =? 6) || (m =? 9) || (m =? 11) then 30
  else 31.

(** Exactly [n] decimal digits at the head of [s]. *)
Fixpoint readDigits (n : nat) (acc : Z) (s : string) : option (Z * string) :=
  match n with
  | O => Some (acc, s)
  | S n' =>
      match s with
      | String c s' =>
          match digit 10 c with
          | Some d => readDigits n' (acc * 10 + d) s'
          | None => None
          end
      | EmptyString => None
      end
  end.

Definition expect (c : ascii) (s : string) : option string :=
  match s with
  | String c' s' => if Ascii.eqb c c' then Some s' else None
  | EmptyString => None
  end.

(** The time of day after the date: nothing (a date alone is UTC midnight),
    or [THH:MM:SS], an optional [.sss] and an optional [Z]; without [Z] the
    time is local, [tz] minutes east of UTC. *)
Definition timeOfDay (tz : Z) (s : string) : option Z :=
  match s with
  | EmptyString => Some 0
  | _ =>
      s ← expect "T" s;
      '(hh, s) ← readDigits 2 0 s;
      s ← expect ":" s;
      '(mi, s) ← readDigits 2 0 s;
      s ← expect ":" s;
      '(ss, s) ← readDigits 2 0 s;
      '(ms, s) ← match s with
                 | String "." r => readDigits 3 0 r
                 | _ => Some (0, s)
                 end;
      if (hh <=? 23) && (mi <=? 59) && (ss <=? 59) then
        let t := hh * 3600000 + mi * 60000 + ss * 1000 + ms in
        match s with
        | EmptyString => Some (t - tz * 60000)
        | String "Z" EmptyString => Some t
        | _ => None
        end
      else None
  end.

(** [Date.parse(s)] for the ISO format [YYYY-MM-DD] with an optional time of
    day, in a runtime whose local time is [tz] minutes east of UTC; every
    other string is NaN here.  What else a runtime accepts is left to it by
    the language, so the program below takes its [Date.parse] as an argument
    [parse], and this one is the instance the examples run on. *)
Definition dateParse (tz : Z) (s : string) : num :=
  default NaN (
    '(y, s) ← readDigits 4 0 s;
    s ← expect "-" s;
    '(m, s) ← readDigits 2 0 s;
    s ← expect "-" s;
    '(d, s) ← readDigits 2 0 s;
    if (1 <=? m) && (m <=? 12) && (1 <=? d) && (d <=? daysInMonth y m) then
      t ← timeOfDay tz s;
      Some (Int (daysFromCivil y m d * msPerDay + t))
    else None).

(** [new Date(v).getTime()]: a string is parsed, undefined is an invalid
    date, null is the epoch, a number is the time itself (within the range
    of a date). *)
Definition dateOf (parse : string -> num) (v : value) : num :=
  match v with
  | Undefined => NaN
  | Null => Int 0
  | Number NaN => NaN
  | Number (Int z) => if Z.abs z <=? 8640000000000000 then Int z else NaN
  | Str s => parse s
  end.

Fixpoint zeros (n : nat) : string :=
  match n with
  | O => EmptyString
  | S n' => String "0" (zeros n')
  end.

(** [z] in decimal, padded with zeros to [w] characters ([0 <= z]). *)
Definition pad (w : nat) (z : Z) : string :=
  let s := pretty z in zeros (w - String.length s) +:+ s.

(** [new Date(t).toISOString()] for a time [t] in milliseconds. *)
Definition toISOString (t : Z) : string :=
  let '(y, m, d) := civilFromDays (t / msPerDay) in
  let ms := t mod msPerDay in
  (if (0 <=? y) && (y <=? 9999) then pad 4 y
   else (if y <? 0 then "-" else "+") +:+ pad 6 (Z.abs y))
  +:+ "-" +:+ pad 2 m +:+ "-" +:+ pad 2 d
  +:+ "T" +:+ pad 2 (ms / 3600000) +:+ ":" +:+ pad 2 (ms / 60000 mod 60)
  +:+ ":" +:+ pad 2 (ms / 1000 mod 60) +:+ "." +:+ pad 3 (ms mod 1000) +:+ "Z".

(** [s.slice(0, n)]. *)
Definition slice0 (n : nat) (s : string) : string := String.substring 0 n s.

(** *** Array.prototype.sort *)

(** The comparator's answer says "[a] after [b]" when it is positive; NaN
    counts as zero. *)
Definition after (n : num) : bool :=
  match n with
  | Int z => 0 <? z
  | NaN => false
  end.

Fixpoint sortInsert {A : Type} (cmp : A -> A -> num) (x : A) (l : list A) : list A :=
  match l with
  | [] => [x]
  | y :: l' => if after (cmp x y) then y :: sortInsert cmp x l' else x :: l
  end.

(** [l.sort(cmp)] as a stable insertion sort: every element goes in front of
    the first one the comparator does not put it after.  The result is a
    permutation of the array for every comparator.  For a comparator that
    orders the elements consistently the language fixes the result, sorted
    and stable, and this is it; for one that does not (two tasks without a
    due date are each "after" the other, a difference with NaN is neither
    sign) the language leaves the order to the runtime, and runtimes differ
    from this one.  What is proved of the order of a sorted array is
    therefore stated for arrays on which the comparator is consistent. *)
Fixpoint sort {A : Type} (cmp : A -> A -> num) (l : list A) : list A :=
  match l with
  | [] => []
  | x :: l' => sortInsert cmp x (sort cmp l')
  end.

End JS.

(* ================================================================= *)
(** ** The objects of the program *)

(** A task as the API sends it, read through the properties
    [normalizeTask] looks at. *)
Module WireTask.
Record t : Type := mk {
  id : JS.value;
  title : string;
  desc : option string;
  category_id : option Z;
  priority : option string;
  status : option string;
  due_date : option string;
  created_at : JS.value;
}.
End WireTask.

(** A task as the client holds it. *)
Module Task.
Record t : Type := mk {
  id : string;
  title : string;
  desc : string;
  category : string;
  priority : string;
  status : string;
  due : string;
  createdAt : JS.num;
}.
End Task.

(** The fields of the task dialog ([taskForm]). *)
Module TaskForm.
Record t : Type := mk {
  title : string;
  desc : string;
  category : string;
  priority : string;
  due : string;
  status : string;
}.
End TaskForm.

(** The body of a task create or update request. *)
Module Payload.
Record t : Type := mk {
  title : string;
  desc : string;
  category_id : option JS.num;
  priority : string;
  status : string;
  due_date : option string;
}.
End Payload.

Module WireCat.
Record t : Type := mk {
  id : JS.value;
  name : string;
  color : string;
}.
End WireCat.

Module Cat.
Record t : Type := mk {
  id : string;
  name : string;
  color : string;
}.
End Cat.

(* ================================================================= *)
(** ** Format conversion *)

(** [normalizeTask(t)]; [parse] is the [Date.parse] of the runtime. *)
Definition normalizeTask (parse : string -> JS.num) (t : WireTask.t) : Task.t :=
  {| Task.id := JS.to_string (WireTask.id t);
     Task.title := WireTask.title t;
     Task.desc := JS.or_else (WireTask.desc t) "";
     Task.category :=
       if JS.truthy_num (WireTask.category_id t)
       then JS.to_string (JS.of_num (WireTask.category_id t))
       else "";
     Task.priority := JS.or_else (WireTask.priority t) "medium";
     Task.status := JS.or_else (WireTask.status t) "pending";
     Task.due := JS.or_else (WireTask.due_date t) "";
     Task.createdAt := JS.dateOf parse (WireTask.created_at t) |}.

Definition normalizeCat (c : WireCat.t) : Cat.t :=
  {| Cat.id := JS.to_string (WireCat.id c);
     Cat.name := WireCat.name c;
     Cat.color := WireCat.color c |}.

Definition taskToPayload (form : TaskForm.t) : Payload.t :=
  {| Payload.title := JS.trim (TaskForm.title form);
     Payload.desc := JS.or_else (Some (TaskForm.desc form)) "";
     Payload.category_id :=
       if JS.truthy (Some (TaskForm.category form))
       then Some (JS.parseInt (TaskForm.category form))
       else None;
     Payload.priority := TaskForm.priority form;
     Payload.status := TaskForm.status form;
     Payload.due_date := JS.or_null (TaskForm.due form) |}.

(** The form filled from a task, as [openTaskDlg(task)] does with
    [Object.assign]. *)
Definition formOfTask (task : Task.t) : TaskForm.t :=
  {| TaskForm.title := Task.title task;
     TaskForm.desc := Task.desc task;
     TaskForm.category := Task.category task;
     TaskForm.priority := Task.priority task;
     TaskForm.due := Task.due task;
     TaskForm.status := Task.status task |}.

(** What [normalizeTask] reads when it is handed a client task: the object
    has [id], [title], [desc], [priority] and [status]; it has no
    [category_id], [due_date] or [created_at], which read as undefined. *)
Definition readAsWire (c : Task.t) : WireTask.t :=
  {| WireTask.id := JS.Str (Task.id c);
     WireTask.title := Task.title c;
     WireTask.desc := Some (Task.desc c);
     WireTask.category_id := None;
     WireTask.priority := Some (Task.priority c);
     WireTask.status := Some (Task.status c);
     WireTask.due_date := None;
     WireTask.created_at := JS.Undefined |}.

(* ================================================================= *)
(** ** Date helpers *)

(** [today()], at the clock time [now] (milliseconds since the epoch). *)
Definition today (now : Z) : string := JS.slice0 10 (JS.toISOString now).

Definition isOverdue (now : Z) (s : string) : bool :=
  JS.truthy (Some s) && JS.str_lt s (today now).

Definition isToday (now : Z) (s : string) : bool := String.eqb s (today now).

(** [isSoon(s)] at the clock time [now].  The quotient [d] is kept as a
    rational: on the integers a date difference can be, the division of the
    runtime rounds, but not across 0 or 2. *)
Definition isSoon (parse : string -> JS.num) (now : Z) (s : string) : bool :=
  if negb (JS.truthy (Some s)) then false
  else
    match JS.sub (JS.dateOf parse (JS.Str (s +:+ "T00:00:00"))) (JS.Int now) with
    | JS.NaN => false
    | JS.Int diff =>
        let d := (diff # 86400000)%Q in
        Qle_bool 0 d && Qle_bool d 2
    end.

(* ================================================================= *)
(** ** The derived task view *)

(** The arrays of the program live in a store: [visibleTasks] copies the
    task array, filters make new arrays, and [sort] works in place on the
    array it is given. *)
Definition loc : Type := positive.
Abbreviation store := (gmap loc (list Task.t)).

(** A computation on the store. *)
Definition M (A : Type) : Type := store -> A * store.

Definition ret {A : Type} (a : A) : M A := fun h => (a, h).

Definition bind {A B : Type} (m : M A) (k : A -> M B) : M B :=
  fun h => let '(a, h') := m h in k a h'.

Notation "x <- m ;; k" := (bind m (fun x => k))
  (at level 100, m at next level, right associativity).

(** The elements of the array at [r]. *)
Definition read (r : loc) : M (list Task.t) :=
  fun h => (default [] (h !! r), h).

(** A new array with the given elements. *)
Definition alloc (l : list Task.t) : M loc :=
  fun h => let r := fresh (dom h) in (r, <[r := l]> h).

(** [[...a]]. *)
Definition spread (a : loc) : M loc :=
  l <- read a ;; alloc l.

(** [a.filter(p)]. *)
Definition arrayFilter (p : Task.t -> bool) (a : loc) : M loc :=
  l <- read a ;; alloc (List.filter p l).

(** [a.sort(cmp)]: sorts the array in place and returns it. *)
Definition arraySort (cmp : Task.t -> Task.t -> JS.num) (a : loc) : M loc :=
  fun h => (a, <[a := JS.sort cmp (default [] (h !! a))]> h).

(** The rank object [{high:0, medium:1, low:2}] looked up at a priority;
    any other key subtracts as NaN. *)
Definition o (p : string) : JS.num :=
  if String.eqb p "high" then JS.Int 0
  else if String.eqb p "medium" then JS.Int 1
  else if String.eqb p "low" then JS.Int 2
  else JS.NaN.

(** The comparator handed to [sort]. *)
Definition compareTasks (sortBy : string) (a b : Task.t) : JS.num :=
  if String.eqb sortBy "created_desc" then JS.sub (Task.createdAt b) (Task.createdAt a)
  else if String.eqb sortBy "created_asc" then JS.sub (Task.createdAt a) (Task.createdAt b)
  else if String.eqb sortBy "due_asc" then
    if negb (JS.truthy (Some (Task.due a))) then JS.Int 1
    else if negb (JS.truthy (Some (Task.due b))) then JS.Int (-1)
    else JS.localeCompare (Task.due a) (Task.due b)
  else if String.eqb sortBy "due_desc" then
    if negb (JS.truthy (Some (Task.due a))) then JS.Int 1
    else if negb (JS.truthy (Some (Task.due b))) then JS.Int (-1)
    else JS.localeCompare (Task.due b) (Task.due a)
  else if String.eqb sortBy "priority" then JS.sub (o (Task.priority a)) (o (Task.priority b))
  else JS.Int 0.

(** The search predicate, [q] already in lower case. *)
Definition searchHit (q : string) (t : Task.t) : bool :=
  JS.includes (JS.toLowerCase (Task.title t)) q
  || JS.includes (JS.toLowerCase (Task.desc t)) q.

(** [visibleTasks], computed from the task array [tasks] and the four
    controls; the clock reads [now] throughout. *)
Definition visibleTasks (now : Z) (filter priorityF searchQ sortBy : string)
    (tasks : loc) : M loc :=
  list <- spread tasks ;;
  list <- (if String.eqb filter "today" then arrayFilter (fun t => isToday now (Task.due t)) list
           else if String.eqb filter "pending" then arrayFilter (fun t => String.eqb (Task.status t) "pending") list
           else if String.eqb filter "done" then arrayFilter (fun t => String.eqb (Task.status t) "done") list
           else if negb (String.eqb filter "all") then arrayFilter (fun t => String.eqb (Task.category t) filter) list
           else ret list) ;;
  list <- (if negb (String.eqb priorityF "all")
           then arrayFilter (fun t => String.eqb (Task.priority t) priorityF) list
           else ret list) ;;
  list <- (if JS.truthy (Some searchQ)
           then arrayFilter (searchHit (JS.toLowerCase searchQ)) list
           else ret list) ;;
  list <- arraySort (compareTasks sortBy) list ;;
  ret list.

(** An entry of the navigation list, without its label and icon. *)
Record NavItem : Type := mkNav {
  key : string;
  count : nat;
}.

(** A statistics card, without its colour and icon. *)
Record StatCard : Type := mkStat {
  label : string;
  value : nat;
}.

Definition navItems (now : Z) (tasks : list Task.t) : list NavItem :=
  [ {| key := "all"; count := length tasks |};
    {| key := "today";
       count := length (List.filter (fun t => isToday now (Task.due t)) tasks) |};
    {| key := "pending";
       count := length (List.filter (fun t => String.eqb (Task.status t) "pending") tasks) |};
    {| key := "done";
       count := length (List.filter (fun t => String.eqb (Task.status t) "done") tasks) |} ].

Definition statsCards (now : Z) (tasks : list Task.t) : list StatCard :=
  [ {| label := "总任务"; value := length tasks |};
    {| label := "待完成";
       value := length (List.filter (fun t => String.eqb (Task.status t) "pending") tasks) |};
    {| label := "已完成";
       value := length (List.filter (fun t => String.eqb (Task.status t) "done") tasks) |};
    {| label := "已逾期";
       value := length (List.filter (fun t => String.eqb (Task.status t) "pending"
                                            && isOverdue now (Task.due t)) tasks) |} ].

(* ================================================================= *)
(** ** The HTTP client *)

(** What [request] touches of the browser: the local storage and the
    fragment of the location, which the router follows. *)
Record Browser : Type := mkBrowser {
  localStorage : gmap string string;
  hash : string;
}.

(** The arguments of [fetch]; [body] is kept as the object that
    [JSON.stringify] would print. *)
Record Request (B : Type) : Type := mkRequest {
  url : string;
  method : string;
  headers : list (string * string);
  body : option B;
}.
Arguments mkRequest {B}.
Arguments url {B}.
Arguments method {B}.
Arguments headers {B}.
Arguments body {B}.

(** A parsed response body as the client reads it: its [message] property,
    and the value itself, typed by the endpoint. *)
Record Json (D : Type) : Type := mkJson {
  message : option string;
  data : D;
}.
Arguments mkJson {D}.
Arguments message {D}.
Arguments data {D}.

(** A response: its status, and what [res.json()] gives, which is a parsed
    body or a rejection with its message. *)
Record Response (D : Type) : Type := mkResponse {
  status : Z;
  json : string + Json D;
}.
Arguments mkResponse {D}.
Arguments status {D}.
Arguments json {D}.

(** [res.ok]. *)
Definition ok {D : Type} (res : Response D) : bool :=
  (200 <=? status res) && (status res <=? 299).

(** [fetch] resolves with a response or rejects (the network failed). *)
Inductive Fetched (D : Type) : Type :=
  | Rejected (reason : string)
  | Resolved (res : Response D).
Arguments Rejected {D}.
Arguments Resolved {D}.

Definition API_BASE : string := "https://task-manage-production.up.railway.app".

Definition sessionExpired : string := "登录已过期，请重新登录".

(** The arguments [request] hands to [fetch]: the bearer header is there
    when a token is stored. *)
Definition fetchArgs {B : Type} (method path : string) (body : option B)
    (br : Browser) : Request B :=
  let token := localStorage br !! "tf_token" in
  {| url := API_BASE +:+ path;
     method := method;
     headers := ("Content-Type", "application/json")
                :: (if JS.truthy token
                    then [("Authorization", "Bearer " +:+ default "" token)]
                    else []);
     body := body |}.

(** [request(method, path, body)]: the new browser state, and the error
    message thrown or the data returned.  [fetch] is the network. *)
Definition request {B D : Type} (fetch : Request B -> Fetched D)
    (method path : string) (body : option B) (br : Browser)
  : Browser * (string + D) :=
  match fetch (fetchArgs method path body br) with
  | Rejected reason => (br, inl reason)
  | Resolved res =>
      if status res =? 401 then
        ({| localStorage := delete "tf_user" (delete "tf_token" (localStorage br));
            hash := "/login" |},
         inl sessionExpired)
      else
        match json res with
        | inl reason => (br, inl reason)
        | inr parsed =>
            if negb (ok res) then (br, inl (JS.or_else (message parsed) "请求失败"))
            else (br, inr (data parsed))
        end
  end.

(* ================================================================= *)
(** ** The task page *)

(** The body of the status toggle, [{ status: newStatus }]. *)
Module Patch.
Record t : Type := mk { status : string }.
End Patch.

(** [catForm], which is also the shape of the category request body. *)
Module CatForm.
Record t : Type := mk {
  name : string;
  color : string;
}.
End CatForm.

Module TaskDlg.
Record t : Type := mk {
  show : bool;
  isEdit : bool;
  editId : option string;
}.
End TaskDlg.

(** The reactive state of the page. *)
Module View.
Record t : Type := mk {
  tasks : list Task.t;
  categories : list Cat.t;
  filter : string;
  priorityF : string;
  sortBy : string;
  searchQ : string;
  taskDlg : TaskDlg.t;
  taskForm : TaskForm.t;
  catDlgShow : bool;
  catForm : CatForm.t;
  saving : bool;
}.

Definition setTasks (x : list Task.t) (v : t) : t :=
  mk x (categories v) (filter v) (priorityF v) (sortBy v) (searchQ v)
     (taskDlg v) (taskForm v) (catDlgShow v) (catForm v) (saving v).

Definition setCategories (x : list Cat.t) (v : t) : t :=
  mk (tasks v) x (filter v) (priorityF v) (sortBy v) (searchQ v)
     (taskDlg v) (taskForm v) (catDlgShow v) (catForm v) (saving v).

Definition setFilter (x : string) (v : t) : t :=
  mk (tasks v) (categories v) x (priorityF v) (sortBy v) (searchQ v)
     (taskDlg v) (taskForm v) (catDlgShow v) (catForm v) (saving v).

Definition setTaskDlgShow (x : bool) (v : t) : t :=
  mk (tasks v) (categories v) (filter v) (priorityF v) (sortBy v) (searchQ v)
     (TaskDlg.mk x (TaskDlg.isEdit (taskDlg v)) (TaskDlg.editId (taskDlg v)))
     (taskForm v) (catDlgShow v) (catForm v) (saving v).

Definition setCatDlgShow (x : bool) (v : t) : t :=
  mk (tasks v) (categories v) (filter v) (priorityF v) (sortBy v) (searchQ v)
     (taskDlg v) (taskForm v) x (catForm v) (saving v).

Definition setSaving (x : bool) (v : t) : t :=
  mk (tasks v) (categories v) (filter v) (priorityF v) (sortBy v) (searchQ v)
     (taskDlg v) (taskForm v) (catDlgShow v) (catForm v) x.
End View.

(** A call of [ElMessage]. *)
Inductive Toast : Type :=
  | ToastSuccess (text : string)
  | ToastInfo (text : string)
  | ToastError (text : string).

(** Everything an operation of the page reads and writes. *)
Record World : Type := mkWorld {
  browser : Browser;
  view : View.t;
  toasts : list Toast;
}.

(** [a.findIndex(p)]; [None] stands for -1. *)
Fixpoint findIndex {A : Type} (p : A -> bool) (a : list A) : option nat :=
  match a with
  | [] => None
  | x :: a' => if p x then Some O else S <$> findIndex p a'
  end.

(** Each operation below awaits one request; [fetch] answers it.  The
    operation runs to its end before anything else touches the state. *)

Definition toggleTaskApi (parse : string -> JS.num) (fetch : Request Patch.t -> Fetched WireTask.t)
    (id currentStatus : string) (w : World) : World :=
  let newStatus := if String.eqb currentStatus "done" then "pending" else "done" in
  let '(br, r) := request fetch "PUT" ("/api/tasks/" +:+ id)
                    (Some {| Patch.status := newStatus |}) (browser w) in
  match r with
  | inr updated =>
      let tasks := View.tasks (view w) in
      let tasks :=
        match findIndex (fun t => String.eqb (Task.id t) id) tasks with
        | Some idx => <[idx := normalizeTask parse updated]> tasks
        | None => tasks
        end in
      {| browser := br;
         view := View.setTasks tasks (view w);
         toasts := toasts w ++ [ToastSuccess (if String.eqb newStatus "done"
                                              then "任务已完成 🎉" else "任务已恢复")] |}
  | inl e => {| browser := br; view := view w; toasts := toasts w ++ [ToastError e] |}
  end.

(** [confirmDeleteTask(id)]; [confirmed] is the user's answer to the
    confirmation box. *)
Definition confirmDeleteTask (confirmed : bool) (fetch : Request unit -> Fetched unit)
    (id : string) (w : World) : World :=
  if confirmed then
    let '(br, r) := request fetch "DELETE" ("/api/tasks/" +:+ id) None (browser w) in
    match r with
    | inr _ =>
        {| browser := br;
           view := View.setTasks
                     (List.filter (fun t => negb (String.eqb (Task.id t) id))
                                  (View.tasks (view w)))
                     (view w);
           toasts := toasts w ++ [ToastInfo "任务已删除"] |}
    | inl e => {| browser := br; view := view w; toasts := toasts w ++ [ToastError e] |}
    end
  else w.

(** [saveTaskApi()]; [valid] is the verdict of the form's validation. *)
Definition saveTaskApi (parse : string -> JS.num) (valid : bool)
    (fetch : Request Payload.t -> Fetched WireTask.t) (w : World) : World :=
  if negb valid then w
  else
    let payload := taskToPayload (View.taskForm (view w)) in
    let dlg := View.taskDlg (view w) in
    let '(br, v, toast) :=
      if TaskDlg.isEdit dlg then
        let '(br, r) := request fetch "PUT"
                          ("/api/tasks/" +:+ JS.to_string (JS.of_str (TaskDlg.editId dlg)))
                          (Some payload) (browser w) in
        match r with
        | inr updated =>
            let tasks := View.tasks (view w) in
            let tasks :=
              match findIndex (fun t => bool_decide (Some (Task.id t) = TaskDlg.editId dlg)) tasks with
              | Some idx => <[idx := normalizeTask parse updated]> tasks
              | None => tasks
              end in
            (br, View.setTaskDlgShow false (View.setTasks tasks (view w)),
             ToastSuccess "任务已更新")
        | inl e => (br, view w, ToastError e)
        end
      else
        let '(br, r) := request fetch "POST" "/api/tasks" (Some payload) (browser w) in
        match r with
        | inr created =>
            (br, View.setTaskDlgShow false
                   (View.setTasks (normalizeTask parse created :: View.tasks (view w)) (view w)),
             ToastSuccess "任务创建成功")
        | inl e => (br, view w, ToastError e)
        end in
    {| browser := br; view := View.setSaving false v; toasts := toasts w ++ [toast] |}.

Definition saveCatApi (valid : bool)
    (fetch : Request CatForm.t -> Fetched WireCat.t) (w : World) : World :=
  if negb valid then w
  else
    let form := View.catForm (view w) in
    let '(br, r) := request fetch "POST" "/api/categories"
                      (Some {| CatForm.name := JS.trim (CatForm.name form);
                               CatForm.color := CatForm.color form |})
                      (browser w) in
    let '(v, toast) :=
      match r with
      | inr created =>
          (View.setCatDlgShow false
             (View.setCategories (View.categories (view w) ++ [normalizeCat created]) (view w)),
           ToastSuccess "分类创建成功")
      | inl e => (view w, ToastError e)
      end in
    {| browser := br; view := View.setSaving false v; toasts := toasts w ++ [toast] |}.

Definition deleteCategoryApi (fetch : Request unit -> Fetched unit)
    (id : string) (w : World) : World :=
  let '(br, r) := request fetch "DELETE" ("/api/categories/" +:+ id) None (browser w) in
  match r with
  | inr _ =>
      let v := View.setCategories
                 (List.filter (fun c => negb (String.eqb (Cat.id c) id))
                              (View.categories (view w)))
                 (view w) in
      let v := if String.eqb (View.filter v) id then View.setFilter "all" v else v in
      {| browser := br; view := v; toasts := toasts w ++ [ToastInfo "分类已删除"] |}
  | inl e => {| browser := br; view := view w; toasts := toasts w ++ [ToastError e] |}
  end.

(* ================================================================= *)
(** ** The vocabulary of the properties *)

(** A wire task sent through [normalizeTask], the task dialog and
    [taskToPayload]. *)
Definition roundTrip (parse : string -> JS.num) (w : WireTask.t) : Payload.t :=
  taskToPayload (formOfTask (normalizeTask parse w)).



(** [normalizeTask] applied to a task of the client. *)
Definition renormalize (parse : string -> JS.num) (c : Task.t) : Task.t :=
  normalizeTask parse (readAsWire c).

Definition withCategoryId (x : option Z) (w : WireTask.t) : WireTask.t :=
  {| WireTask.id := WireTask.id w;
     WireTask.title := WireTask.title w;
     WireTask.desc := WireTask.desc w;
     WireTask.category_id := x;
     WireTask.priority := WireTask.priority w;
     WireTask.status := WireTask.status w;
     WireTask.due_date := WireTask.due_date w;
     WireTask.created_at := WireTask.created_at w |}.

(** The three filters of the derived view as the specification describes
    them, each a predicate on a task: the view filter (today keeps the tasks
    due today, pending and done keep the tasks of that status, all keeps
    everything, anything else is a category id and keeps its tasks), the
    priority filter (all keeps everything) and the search (empty keeps
    everything; otherwise the query occurs in the title or in the
    description, letter case apart). *)
Definition viewKeeps (now : Z) (filter : string) (t : Task.t) : bool :=
  if String.eqb filter "today" then isToday now (Task.due t)
  else if String.eqb filter "pending" then String.eqb (Task.status t) "pending"
  else if String.eqb filter "done" then String.eqb (Task.status t) "done"
  else if String.eqb filter "all" then true
  else String.eqb (Task.category t) filter.

Definition priorityKeeps (priorityF : string) (t : Task.t) : bool :=
  if String.eqb priorityF "all" then true
  else String.eqb (Task.priority t) priorityF.

Definition searchKeeps (searchQ : string) (t : Task.t) : bool :=
  if String.eqb searchQ "" then true
  else JS.includes (JS.toLowerCase (Task.title t)) (JS.toLowerCase searchQ)
       || JS.includes (JS.toLowerCase (Task.desc t)) (JS.toLowerCase searchQ).

(** A task passes all the active filters. *)
Definition shown (now : Z) (filter priorityF searchQ : string) (t : Task.t) : bool :=
  viewKeeps now filter t && priorityKeeps priorityF t && searchKeeps searchQ t.

(** The elements of the array that [visibleTasks] returns. *)
Definition visibleList (now : Z) (filter priorityF searchQ sortBy : string)
    (l : list Task.t) : list Task.t :=
  JS.sort (compareTasks sortBy)
    (List.filter (searchKeeps searchQ)
       (List.filter (priorityKeeps priorityF)
          (List.filter (viewKeeps now filter) l))).



(** The rank that the specification gives the priorities: high, then
    medium, then low.  Any other string has none. *)
Definition priorityRank (p : string) : option nat :=
  if String.eqb p "high" then Some 0%nat
  else if String.eqb p "medium" then Some 1%nat
  else if String.eqb p "low" then Some 2%nat
  else None.



Definition isInt (n : JS.num) : bool :=
  match n with
  | JS.Int _ => true
  | JS.NaN => false
  end.

Definition isDigit (c : ascii) : bool :=
  (48 <=? JS.code c) && (JS.code c <=? 57).

(** A date as the date picker writes it, [YYYY-MM-DD]: four digits, two and
    two, with hyphens between. *)
Definition isDate (s : string) : bool :=
  match String.list_ascii_of_string s with
  | [y1; y2; y3; y4; h1; m1; m2; h2; d1; d2] =>
      forallb isDigit [y1; y2; y3; y4; m1; m2; d1; d2]
      && Ascii.eqb h1 "-"%char && Ascii.eqb h2 "-"%char
  | _ => false
  end.

(** The field a sort key compares is a value of the data model: the creation
    time is a number, the due date is empty or a date, the priority is high,
    medium or low.  Any other key compares nothing. *)
Definition keyKnown (sortBy : string) (t : Task.t) : bool :=
  if String.eqb sortBy "created_desc" || String.eqb sortBy "created_asc"
  then isInt (Task.createdAt t)
  else if String.eqb sortBy "due_asc" || String.eqb sortBy "due_desc"
  then String.eqb (Task.due t) "" || isDate (Task.due t)
  else if String.eqb sortBy "priority"
  then match priorityRank (Task.priority t) with Some _ => true | None => false end
  else true.

Definition undated (t : Task.t) : bool := String.eqb (Task.due t) "".

(** The comparator of the sort key orders the tasks of the list
    consistently: the fields it compares are values of the data model, and
    under the two due keys, where a task without a due date is "after"
    whatever it is compared with, at most one task is without one.  On such
    a list the language fixes what the sort returns. *)
Definition consistentOn (sortBy : string) (l : list Task.t) : bool :=
  forallb (keyKnown sortBy) l
  && (if String.eqb sortBy "due_asc" || String.eqb sortBy "due_desc"
      then (length (List.filter undated l) <=? 1)%nat
      else true).


(** The status of a task is one of the two of the data model, the two the
    task form offers. *)
Definition statusKnown (t : Task.t) : Prop :=
  Task.status t = "pending" \/ Task.status t = "done".

(** "Soon" as the specification words it: the start of the due day lies in
    the half-open range from [now] to two days later. *)
Definition soonAsStated (now start : Z) : Prop :=
  now <= start < now + 2 * JS.msPerDay.

(** The operations of the page that change a task or a category, each with
    the network that answers it: the status toggle, the confirmed deletion
    of a task, the validated task form (create or update, by the mode of
    the dialog), the validated category form, the deletion of a category. *)
Inductive Mutation : Type :=
  | ToggleTask (fetch : Request Patch.t -> Fetched WireTask.t) (id currentStatus : string)
  | DeleteTask (fetch : Request unit -> Fetched unit) (id : string)
  | SaveTask (fetch : Request Payload.t -> Fetched WireTask.t)
  | SaveCat (fetch : Request CatForm.t -> Fetched WireCat.t)
  | DeleteCat (fetch : Request unit -> Fetched unit) (id : string).

Definition perform (parse : string -> JS.num) (m : Mutation) (w : World) : World :=
  match m with
  | ToggleTask fetch id currentStatus => toggleTaskApi parse fetch id currentStatus w
  | DeleteTask fetch id => confirmDeleteTask true fetch id w
  | SaveTask fetch => saveTaskApi parse true fetch w
  | SaveCat fetch => saveCatApi true fetch w
  | DeleteCat fetch id => deleteCategoryApi fetch id w
  end.

Definition forget {D : Type} (r : Browser * (string + D)) : Browser * (string + unit) :=
  (r.1, match r.2 with inl e => inl e | inr _ => inr tt end).

(** How the request that a mutation sends ends: with an error message, or
    with data (forgotten here). *)
Definition outcome (m : Mutation) (w : World) : Browser * (string + unit) :=
  match m with
  | ToggleTask fetch id currentStatus =>
      forget (request fetch "PUT" ("/api/tasks/" +:+ id)
                (Some {| Patch.status := if String.eqb currentStatus "done"
                                         then "pending" else "done" |})
                (browser w))
  | DeleteTask fetch id =>
      forget (request fetch "DELETE" ("/api/tasks/" +:+ id) None (browser w))
  | SaveTask fetch =>
      if TaskDlg.isEdit (View.taskDlg (view w)) then
        forget (request fetch "PUT"
                  ("/api/tasks/" +:+ JS.to_string (JS.of_str (TaskDlg.editId (View.taskDlg (view w)))))
                  (Some (taskToPayload (View.taskForm (view w)))) (browser w))
      else
        forget (request fetch "POST" "/api/tasks"
                  (Some (taskToPayload (View.taskForm (view w)))) (browser w))
  | SaveCat fetch =>
      forget (request fetch "POST" "/api/categories"
                (Some {| CatForm.name := JS.trim (CatForm.name (View.catForm (view w)));
                         CatForm.color := CatForm.color (View.catForm (view w)) |})
                (browser w))
  | DeleteCat fetch id =>
      forget (request fetch "DELETE" ("/api/categories/" +:+ id) None (browser w))
  end.

(* ================================================================= *)
(** ** Sample data *)

(** [Date.parse] of a runtime whose local time is UTC. *)
Definition utc : string -> JS.num := JS.dateParse 0.

Definition milkWire : WireTask.t :=
  {| WireTask.id := JS.Number (JS.Int 7);
     WireTask.title := " Buy milk ";
     WireTask.desc := None;
     WireTask.category_id := Some 5;
     WireTask.priority := Some "high";
     WireTask.status := Some "pending";
     WireTask.due_date := Some "2024-01-01";
     WireTask.created_at := JS.Str "2023-12-30T08:00:00.000Z" |}.

Definition bareWire : WireTask.t :=
  {| WireTask.id := JS.Number (JS.Int 8);
     WireTask.title := "Call Ann";
     WireTask.desc := Some "";
     WireTask.category_id := Some 0;
     WireTask.priority := None;
     WireTask.status := None;
     WireTask.due_date := None;
     WireTask.created_at := JS.Str "2024-01-02T09:30:00.000Z" |}.

(** A task that the server has given a status of its own. *)
Definition archivedWire : WireTask.t :=
  {| WireTask.id := JS.Number (JS.Int 9);
     WireTask.title := "Old notes";
     WireTask.desc := None;
     WireTask.category_id := None;
     WireTask.priority := Some "low";
     WireTask.status := Some "archived";
     WireTask.due_date := None;
     WireTask.created_at := JS.Str "2023-12-01T00:00:00.000Z" |}.



(** A client task with the fields the view looks at. *)
Definition sampleTask (id title desc category priority status due : string)
    (createdAt : Z) : Task.t :=
  {| Task.id := id; Task.title := title; Task.desc := desc;
     Task.category := category; Task.priority := priority;
     Task.status := status; Task.due := due; Task.createdAt := JS.Int createdAt |}.

Definition sampleTasks : list Task.t :=
  [ sampleTask "1" "Buy Milk" "" "5" "low" "pending" "2024-01-01" 100;
    sampleTask "2" "Write report" "" "5" "high" "pending" "" 400;
    sampleTask "3" "Groceries" "milk and eggs" "" "medium" "done" "2024-01-05" 300;
    sampleTask "4" "Call Ann" "" "" "high" "pending" "" 200;
    sampleTask "5" "Pay rent" "" "5" "medium" "pending" "2023-12-31" 500 ].

(** A store that holds the sample tasks as the array of the page. *)
Definition sampleStore : store := {[ 1%positive := sampleTasks ]}.

(** A time on 2024-01-05 (UTC). *)
Definition sampleNow : Z := 1704412800123.

(** The array at [r] holds [l] in the store [h], did not exist in [h0], and
    every array of [h0] is in [h] as it was. *)
Definition freshIn (h0 h : store) (r : loc) (l : list Task.t) : Prop :=
  h !! r = Some l
  /\ h0 !! r = None
  /\ forall a, is_Some (h0 !! a) -> h !! a = h0 !! a.

(** A browser with a session, and a page that shows the sample tasks, two
    categories, and the category 5 as the active filter. *)
Definition sampleBrowser : Browser :=
  {| localStorage := {[ "tf_token" := "abc"; "tf_user" := "ann"; "tf_theme" := "dark" ]};
     hash := "/tasks" |}.

Definition sampleCats : list Cat.t :=
  [ {| Cat.id := "5"; Cat.name := "Work"; Cat.color := "#6366f1" |};
    {| Cat.id := "6"; Cat.name := "Home"; Cat.color := "#22c55e" |} ].

Definition sampleView : View.t :=
  {| View.tasks := sampleTasks;
     View.categories := sampleCats;
     View.filter := "5";
     View.priorityF := "all";
     View.sortBy := "created_desc";
     View.searchQ := "";
     View.taskDlg := {| TaskDlg.show := true; TaskDlg.isEdit := true;
                        TaskDlg.editId := Some "1" |};
     View.taskForm := formOfTask (sampleTask "1" "Buy Milk" "" "5" "low" "pending" "2024-01-01" 100);
     View.catDlgShow := false;
     View.catForm := {| CatForm.name := " Errands "; CatForm.color := "#6366f1" |};
     View.saving := false |}.

Definition sampleWorld : World :=
  {| browser := sampleBrowser; view := sampleView; toasts := [] |}.

(** Networks: one that answers 401, one that is down, one that answers 500
    with a message, one that answers 200 with the given data. *)
Definition unauthorized {B D : Type} (req : Request B) : Fetched D :=
  Resolved {| status := 401; json := inl "Unexpected end of JSON input" |}.

Definition offline {B D : Type} (req : Request B) : Fetched D :=
  Rejected "Failed to fetch".

Definition serverError {B D : Type} (d : D) (req : Request B) : Fetched D :=
  Resolved {| status := 500;
              json := inr {| message := Some "internal error"; data := d |} |}.

Definition success {B D : Type} (d : D) (req : Request B) : Fetched D :=
  Resolved {| status := 200; json := inr {| message := None; data := d |} |}.

(* ================================================================= *)
(** ** The rest of the program: session, routes, theme, loading, dialog *)

(** What [request] does once [fetch] has settled: the part after the
    [await]. *)
Definition settle {D : Type} (reply : Fetched D) (br : Browser)
  : Browser * (string + D) :=
  match reply with
  | Rejected reason => (br, inl reason)
  | Resolved res =>
      if status res =? 401 then
        ({| localStorage := delete "tf_user" (delete "tf_token" (localStorage br));
            hash := "/login" |},
         inl sessionExpired)
      else
        match json res with
        | inl reason => (br, inl reason)
        | inr parsed =>
            if negb (ok res) then (br, inl (JS.or_else (message parsed) "请求失败"))
            else (br, inr (data parsed))
        end
  end.

(** The routes: [/] redirects to [/login], and [/tasks] is the one route
    with [meta.requiresAuth]. *)
Definition redirect (path : string) : string :=
  if String.eqb path "/" then "/login" else path.

Definition requiresAuth (path : string) : bool := String.eqb path "/tasks".

(** The guard [router.beforeEach]: where a navigation to [to] ends. *)
Definition beforeEach (to : string) (br : Browser) : string :=
  if requiresAuth to && negb (JS.truthy (localStorage br !! "tf_token"))
  then "/login" else to.

(** [router.push(path)]: the route at which the navigation ends.  What the
    page entered there does when it is set up is [arrive]. *)
Definition push (path : string) (br : Browser) : Browser :=
  {| localStorage := localStorage br; hash := beforeEach (redirect path) br |}.

(** The answer to a login or a registration, [{ token, username }]. *)
Module Auth.
Record t : Type := mk {
  token : string;
  username : string;
}.
End Auth.

(** The body of a login or a registration. *)
Module Credentials.
Record t : Type := mk {
  username : string;
  password : string;
}.
End Credentials.

(** The login page and the registration page: the browser, the [loading]
    flag and the messages shown. *)
Module Entrance.
Record t : Type := mk {
  browser : Browser;
  loading : bool;
  toasts : list Toast;
}.
End Entrance.

(** [localStorage.setItem] of the token and the user name. *)
Definition storeSession (data : Auth.t) (br : Browser) : Browser :=
  {| localStorage := <["tf_user" := Auth.username data]>
                       (<["tf_token" := Auth.token data]> (localStorage br));
     hash := hash br |}.

(** What [setup] of the tasks page does to the browser: [applyTheme] writes
    the theme it has read, dark or else light, back to the storage. *)
Definition enterTasks (br : Browser) : Browser :=
  {| localStorage :=
       <["tf_theme" := if bool_decide (localStorage br !! "tf_theme" = Some "dark")
                       then "dark" else "light"]> (localStorage br);
     hash := hash br |}.

(** The page at which a navigation from the login or the registration page
    has ended is set up: the tasks page at [/tasks]; the login page writes
    nothing.  The data that the tasks page loads once it is mounted is
    [loadData]. *)
Definition arrive (br : Browser) : Browser :=
  if String.eqb (hash br) "/tasks" then enterTasks br else br.

(** [submit] of the login page; [valid] is the verdict of the form's
    validation, [form] the user name and the password typed. *)
Definition submitLogin (valid : bool) (fetch : Request Credentials.t -> Fetched Auth.t)
    (form : Credentials.t) (p : Entrance.t) : Entrance.t :=
  if negb valid then p
  else
    let '(br, r) := request fetch "POST" "/api/auth/login" (Some form) (Entrance.browser p) in
    match r with
    | inr data =>
        {| Entrance.browser := arrive (push "/tasks" (storeSession data br));
           Entrance.loading := false;
           Entrance.toasts := Entrance.toasts p
                              ++ [ToastSuccess ("欢迎回来，" +:+ Auth.username data)] |}
    | inl e =>
        {| Entrance.browser := br;
           Entrance.loading := false;
           Entrance.toasts := Entrance.toasts p ++ [ToastError e] |}
    end.

(** [submit] of the registration page. *)
Definition submitRegister (valid : bool) (fetch : Request Credentials.t -> Fetched Auth.t)
    (form : Credentials.t) (p : Entrance.t) : Entrance.t :=
  if negb valid then p
  else
    let '(br, r) := request fetch "POST" "/api/auth/register" (Some form) (Entrance.browser p) in
    match r with
    | inr data =>
        {| Entrance.browser := arrive (push "/tasks" (storeSession data br));
           Entrance.loading := false;
           Entrance.toasts := Entrance.toasts p ++ [ToastSuccess "注册成功！"] |}
    | inl e =>
        {| Entrance.browser := br;
           Entrance.loading := false;
           Entrance.toasts := Entrance.toasts p ++ [ToastError e] |}
    end.

(** [logout()]; [confirmed] is the user's answer to the confirmation box. *)
Definition logout (confirmed : bool) (w : World) : World :=
  if confirmed then
    {| browser := push "/login"
                    {| localStorage := delete "tf_user" (delete "tf_token"
                                                           (localStorage (browser w)));
                       hash := hash (browser w) |};
       view := view w;
       toasts := toasts w |}
  else w.

(** The theme: the [isDark] flag of the page, the [dark] class of the
    document, and the stored choice. *)
Record Theme : Type := mkTheme {
  isDark : bool;
  darkClass : bool;
  themeStore : gmap string string;
}.

(** [applyTheme(dark)]. *)
Definition applyTheme (dark : bool) (t : Theme) : Theme :=
  {| isDark := isDark t;
     darkClass := dark;
     themeStore := <["tf_theme" := if dark then "dark" else "light"]> (themeStore t) |}.

(** The theme part of the page's [setup], from the storage and the class of
    the document as they are when the page loads. *)
Definition setupTheme (darkClass0 : bool) (storage : gmap string string) : Theme :=
  let dark := bool_decide (storage !! "tf_theme" = Some "dark") in
  applyTheme dark {| isDark := dark; darkClass := darkClass0; themeStore := storage |}.

Definition toggleTheme (t : Theme) : Theme :=
  applyTheme (negb (isDark t))
    {| isDark := negb (isDark t); darkClass := darkClass t; themeStore := themeStore t |}.

(** [getCat(id)]; [None] is undefined. *)
Definition getCat (categories : list Cat.t) (id : string) : option Cat.t :=
  List.find (fun c => String.eqb (Cat.id c) id) categories.

Definition setTaskDlgForm (dlg : TaskDlg.t) (form : TaskForm.t) (v : View.t) : View.t :=
  View.mk (View.tasks v) (View.categories v) (View.filter v) (View.priorityF v)
    (View.sortBy v) (View.searchQ v) dlg form (View.catDlgShow v) (View.catForm v)
    (View.saving v).

(** [openTaskDlg(task)]; [None] is the call without a task. *)
Definition openTaskDlg (task : option Task.t) (w : World) : World :=
  let v := view w in
  let '(isEdit, editId, form) :=
    match task with
    | Some task => (true, Some (Task.id task), formOfTask task)
    | None =>
        let defaultCat :=
          if negb (String.eqb (View.filter v) "all")
             && negb (String.eqb (View.filter v) "today")
             && negb (String.eqb (View.filter v) "pending")
             && negb (String.eqb (View.filter v) "done")
          then View.filter v
          else match View.categories v with
               | c :: _ => JS.or_else (Some (Cat.id c)) ""
               | [] => ""
               end in
        (false, None,
         {| TaskForm.title := ""; TaskForm.desc := ""; TaskForm.category := defaultCat;
            TaskForm.priority := "medium"; TaskForm.due := ""; TaskForm.status := "pending" |})
    end in
  {| browser := browser w;
     view := setTaskDlgForm {| TaskDlg.show := true; TaskDlg.isEdit := isEdit;
                               TaskDlg.editId := editId |} form v;
     toasts := toasts w |}.

(** [loadData()].  The two requests start together, each from the browser
    as it is then; [Promise.all] fails with the failure that comes first,
    and [tasksFirst] says that the answer for the tasks comes before the one
    for the categories.  The value beside the world is [pageLoading] at the
    end. *)
Definition loadData (parse : string -> JS.num) (tasksFirst : bool)
    (fetchTasks : Request unit -> Fetched (list WireTask.t))
    (fetchCats : Request unit -> Fetched (list WireCat.t))
    (w : World) : World * bool :=
  let replyTasks := fetchTasks (fetchArgs "GET" "/api/tasks" None (browser w)) in
  let replyCats := fetchCats (fetchArgs "GET" "/api/categories" None (browser w)) in
  let '(br, tasksRes, catsRes) :=
    if tasksFirst then
      let '(br, t) := settle replyTasks (browser w) in
      let '(br, c) := settle replyCats br in (br, t, c)
    else
      let '(br, c) := settle replyCats (browser w) in
      let '(br, t) := settle replyTasks br in (br, t, c) in
  let all : string + (list WireTask.t * list WireCat.t) :=
    match tasksRes, catsRes with
    | inr t, inr c => inr (t, c)
    | inl e, inr _ => inl e
    | inr _, inl e => inl e
    | inl e1, inl e2 => inl (if tasksFirst then e1 else e2)
    end in
  match all with
  | inr (t, c) =>
      ({| browser := br;
          view := View.setCategories (List.map normalizeCat c)
                    (View.setTasks (List.map (normalizeTask parse) t) (view w));
          toasts := toasts w |}, false)
  | inl e =>
      ({| browser := br;
          view := view w;
          toasts := toasts w
                    ++ [ToastError (JS.or_else (Some e) "加载数据失败，请检查后端是否启动")] |},
       false)
  end.

(** Sample answers of the server. *)
Definition annAuth : Auth.t := {| Auth.token := "t0k3n"; Auth.username := "ann" |}.

Definition annForm : Credentials.t :=
  {| Credentials.username := "ann"; Credentials.password := "secret1" |}.

Definition guestEntrance : Entrance.t :=
  {| Entrance.browser := {| localStorage := {[ "tf_theme" := "dark" ]}; hash := "/login" |};
     Entrance.loading := false;
     Entrance.toasts := [] |}.

Definition workCat : WireCat.t :=
  {| WireCat.id := JS.Number (JS.Int 9); WireCat.name := "Errands";
     WireCat.color := "#6366f1" |}.

(** Equality of numbers as values of a sort key: an integer with itself, NaN
    with NaN. *)
Definition numEqb (a b : JS.num) : bool :=
  match a, b with
  | JS.NaN, JS.NaN => true
  | JS.Int x, JS.Int y => x =? y
  | _, _ => false
  end.

(** [t] has the value of [x] in the field that the sort key compares: the
    creation time, the due date (for a task that has one), the priority.
    Under any other key every task does. *)
Definition sameKey (sortBy : string) (x t : Task.t) : bool :=
  if String.eqb sortBy "created_desc" then numEqb (Task.createdAt x) (Task.createdAt t)
  else if String.eqb sortBy "created_asc" then numEqb (Task.createdAt x) (Task.createdAt t)
  else if String.eqb sortBy "due_asc" then
    negb (String.eqb (Task.due x) "") && String.eqb (Task.due x) (Task.due t)
  else if String.eqb sortBy "due_desc" then
    negb (String.eqb (Task.due x) "") && String.eqb (Task.due x) (Task.due t)
  else if String.eqb sortBy "priority" then String.eqb (Task.priority x) (Task.priority t)
  else true.

(** The sort key is one of the five the page offers. *)
Definition knownKey (sortBy : string) : bool :=
  String.eqb sortBy "created_desc" || String.eqb sortBy "created_asc"
  || String.eqb sortBy "due_asc" || String.eqb sortBy "due_desc"
  || String.eqb sortBy "priority".

(** The titles of the built-in views, the object [map] of [pageTitle]; the
    keys looked up are the four names or the id of a category. *)
Definition titleOf (filter : string) : option string :=
  if String.eqb filter "all" then Some "全部任务"
  else if String.eqb filter "today" then Some "今日任务"
  else if String.eqb filter "pending" then Some "待完成"
  else if String.eqb filter "done" then Some "已完成"
  else None.

(** [pageTitle]. *)
Definition pageTitle (categories : list Cat.t) (filter : string) : string :=
  match List.find (fun c => String.eqb (Cat.id c) filter) categories with
  | Some cat => Cat.name cat
  | None => JS.or_else (titleOf filter) "任务"
  end.

(* ================================================================= *)
(** ** Normalization *)



(** A default that is not empty leaves nothing empty behind. *)
Lemma or_else_again (o : option string) (d : string) :
  d <> "" -> JS.or_else (Some (JS.or_else o d)) d = JS.or_else o d.
Proof.
  intros Hd. simpl.
  destruct (String.eqb_spec (JS.or_else o d) "") as [E|]; [|reflexivity].
  destruct o as [s|]; simpl in *; [|congruence].
  destruct (String.eqb_spec s ""); congruence.
Qed.

Lemma or_else_empty (o : option string) :
  JS.or_else (Some (JS.or_else o "")) "" = JS.or_else o "".
Proof.
  simpl. destruct (String.eqb_spec (JS.or_else o "") "") as [E|]; [|reflexivity].
  symmetry; exact E.
Qed.


Example normalize_milk :
  normalizeTask utc milkWire =
  {| Task.id := "7"; Task.title := " Buy milk "; Task.desc := "";
     Task.category := "5"; Task.priority := "high"; Task.status := "pending";
     Task.due := "2024-01-01"; Task.createdAt := JS.Int 1703923200000 |}.
Proof. vm_compute. reflexivity. Qed.

Example normalize_bare :
  normalizeTask utc bareWire =
  {| Task.id := "8"; Task.title := "Call Ann"; Task.desc := "";
     Task.category := ""; Task.priority := "medium"; Task.status := "pending";
     Task.due := ""; Task.createdAt := JS.Int 1704187800000 |}.
Proof. vm_compute. reflexivity. Qed.

Example payload_milk :
  roundTrip utc milkWire =
  {| Payload.title := "Buy milk"; Payload.desc := "";
     Payload.category_id := Some (JS.Int 5); Payload.priority := "high";
     Payload.status := "pending"; Payload.due_date := Some "2024-01-01" |}.
Proof. vm_compute. reflexivity. Qed.



(** A missing priority and status come back as 'medium' and 'pending'. *)
Example roundTrip_fills_defaults :
  Payload.priority (roundTrip utc bareWire) = "medium"
  /\ Payload.status (roundTrip utc bareWire) = "pending"
  /\ Payload.due_date (roundTrip utc bareWire) = None.
Proof. vm_compute. auto. Qed.

(** C2, as the code has it: [normalizeTask] reads [category_id], [due_date]
    and [created_at], which a client task does not have.  Applied to a
    normalized task it keeps id, title, desc, priority and status, and
    resets the category and the due date to the empty string and the
    creation time to NaN; it returns the task unchanged exactly when the
    task has no category, no due date and no valid creation time.  A
    second application changes nothing more. *)
Theorem renormalize_normalized (parse : string -> JS.num) (w : WireTask.t) :
  let c := normalizeTask parse w in
  renormalize parse c =
    {| Task.id := Task.id c; Task.title := Task.title c; Task.desc := Task.desc c;
       Task.category := ""; Task.priority := Task.priority c;
       Task.status := Task.status c; Task.due := ""; Task.createdAt := JS.NaN |}
  /\ (renormalize parse c = c <->
      Task.category c = "" /\ Task.due c = "" /\ Task.createdAt c = JS.NaN)
  /\ renormalize parse (renormalize parse c) = renormalize parse c.
Proof.
  cbv zeta.
  assert (E : forall w', renormalize parse (normalizeTask parse w') =
    {| Task.id := Task.id (normalizeTask parse w');
       Task.title := Task.title (normalizeTask parse w');
       Task.desc := Task.desc (normalizeTask parse w');
       Task.category := ""; Task.priority := Task.priority (normalizeTask parse w');
       Task.status := Task.status (normalizeTask parse w'); Task.due := "";
       Task.createdAt := JS.NaN |}).
  { intros w'. unfold renormalize, normalizeTask, readAsWire. cbn.
    f_equal.
    - apply or_else_empty.
    - apply or_else_again. discriminate.
    - apply or_else_again. discriminate. }
  split; [apply E|]. split.
  - rewrite E. split.
    + intros H. rewrite <- H. cbn. auto.
    + intros (Hc & Hd & Ht).
      destruct (normalizeTask parse w) as [i t d c p s du cr]. cbn in *. now subst.
  - rewrite E. unfold renormalize, normalizeTask, readAsWire. cbn.
    f_equal.
    + apply or_else_empty.
    + apply or_else_again. discriminate.
    + apply or_else_again. discriminate.
Qed.

(** C2 as stated fails: the normalized milk task has category 5, a due
    date and a creation time, and loses the three when normalized again. *)
Lemma renormalize_loses_fields :
  renormalize utc (normalizeTask utc milkWire) =
    {| Task.id := "7"; Task.title := " Buy milk "; Task.desc := "";
       Task.category := ""; Task.priority := "high"; Task.status := "pending";
       Task.due := ""; Task.createdAt := JS.NaN |}
  /\ Task.category (normalizeTask utc milkWire) = "5"
  /\ renormalize utc (normalizeTask utc milkWire) <> normalizeTask utc milkWire.
Proof.
  repeat split; try (vm_compute; reflexivity).
  intros H. apply (f_equal Task.category) in H. vm_compute in H. discriminate.
Qed.

(** C9: a wire task whose category_id is the number 0 is normalized to the
    empty category, exactly as the same task with a null category_id. *)
Theorem normalizeTask_category_zero (parse : string -> JS.num) (w : WireTask.t) :
  WireTask.category_id w = Some 0 ->
  Task.category (normalizeTask parse w) = ""
  /\ normalizeTask parse w = normalizeTask parse (withCategoryId None w).
Proof.
  intros H. unfold normalizeTask, withCategoryId. cbn. rewrite H. cbn. auto.
Qed.

Lemma normalizeTask_category_zero_witness :
  WireTask.category_id bareWire = Some 0
  /\ Task.category (normalizeTask utc bareWire) = ""
  /\ normalizeTask utc bareWire = normalizeTask utc (withCategoryId None bareWire).
Proof.
  split; [reflexivity|].
  apply (normalizeTask_category_zero utc bareWire). reflexivity.
Defined.

(** Any other category id is kept, in decimal. *)
Lemma normalizeTask_category_nonzero (parse : string -> JS.num) (w : WireTask.t) (n : Z) :
  WireTask.category_id w = Some n -> n <> 0 ->
  Task.category (normalizeTask parse w) = pretty n.
Proof.
  intros H Hn. unfold normalizeTask. cbn. rewrite H. cbn.
  destruct (Z.eqb_spec n 0); [contradiction | reflexivity].
Qed.

(* ================================================================= *)
(** ** Sorting *)


Section Sort.
Context {A : Type} (cmp : A -> A -> JS.num).

Lemma sortInsert_perm (x : A) (l : list A) :
  Permutation (JS.sortInsert cmp x l) (x :: l).
Proof.
  induction l as [|y l IH]; simpl; [reflexivity|].
  destruct (JS.after (cmp x y)); [|reflexivity].
  rewrite IH. apply perm_swap.
Qed.

Lemma sort_perm (l : list A) : Permutation (JS.sort cmp l) l.
Proof.
  induction l as [|x l IH]; simpl; [reflexivity|].
  rewrite sortInsert_perm. now apply perm_skip.
Qed.

(** The sort orders by [R] every list of elements on which the comparator
    decides [R]. *)
Context (R : A -> A -> Prop) (P : A -> Prop).
Hypothesis R_trans : forall a b c, R a b -> R b c -> R a c.
Hypothesis cmp_before : forall a b, P a -> P b -> JS.after (cmp a b) = false -> R a b.
Hypothesis cmp_after : forall a b, P a -> P b -> JS.after (cmp a b) = true -> R b a.



End Sort.

(* ================================================================= *)
(** ** The order of strings and of tasks *)






Lemma truthy_string (s : string) : JS.truthy (Some s) = negb (String.eqb s "").
Proof. reflexivity. Qed.

(** Splits the goal along the sort key. *)
Ltac by_sort_key sortBy :=
  destruct (String.eqb sortBy "created_desc");
  [|destruct (String.eqb sortBy "created_asc");
    [|destruct (String.eqb sortBy "due_asc");
      [|destruct (String.eqb sortBy "due_desc");
        [|destruct (String.eqb sortBy "priority")]]]].
















(* ================================================================= *)
(** ** Filters *)

Lemma filter_all {A : Type} (l : list A) : List.filter (fun _ => true) l = l.
Proof. induction l as [|x l IH]; simpl; congruence. Qed.

Lemma Forall_filter {A : Type} (Q : A -> Prop) (p : A -> bool) (l : list A) :
  Forall Q l -> Forall Q (List.filter p l).
Proof.
  induction 1 as [|x l Hx _ IH]; simpl; [constructor|].
  destruct (p x); [now constructor | exact IH].
Qed.

Lemma filter_twice {A : Type} (p q : A -> bool) (l : list A) :
  List.filter q (List.filter p l) = List.filter (fun x => p x && q x) l.
Proof.
  induction l as [|x l IH]; simpl; [reflexivity|].
  destruct (p x); simpl; [destruct (q x)|]; now rewrite IH.
Qed.

Lemma filter_length_le {A : Type} (p q : A -> bool) (l : list A) :
  (length (List.filter (fun x => p x && q x) l) <= length (List.filter p l))%nat.
Proof.
  induction l as [|x l IH]; simpl; [lia|].
  destruct (p x); simpl; [destruct (q x); simpl; lia | lia].
Qed.

Lemma visibleList_perm (now : Z) (filter priorityF searchQ sortBy : string)
    (l : list Task.t) :
  Permutation (visibleList now filter priorityF searchQ sortBy l)
              (List.filter (shown now filter priorityF searchQ) l).
Proof.
  unfold visibleList. rewrite sort_perm.
  rewrite (filter_twice (viewKeeps now filter) (priorityKeeps priorityF)).
  rewrite filter_twice. reflexivity.
Qed.

(* ================================================================= *)
(** ** The arrays of the derived view *)

Lemma bind_run {A B : Type} (m : M A) (k : A -> M B) (h h' : store) (a : A) :
  m h = (a, h') -> bind m k h = k a h'.
Proof. unfold bind. now intros ->. Qed.

Lemma alloc_freshIn (h0 h : store) (l : list Task.t) :
  (forall a, is_Some (h0 !! a) -> h !! a = h0 !! a) ->
  exists r h', alloc l h = (r, h') /\ freshIn h0 h' r l.
Proof.
  intros Hold. unfold alloc.
  set (r := fresh (dom h)).
  assert (Hr : h !! r = None).
  { apply not_elem_of_dom. apply is_fresh. }
  exists r, (<[r := l]> h). split; [reflexivity|]. repeat split.
  - apply lookup_insert_eq.
  - destruct (h0 !! r) eqn:E; [|reflexivity].
    rewrite <- (Hold r) in E by (rewrite E; eauto). congruence.
  - intros a Ha. rewrite lookup_insert_ne; [now apply Hold|].
    intros <-. rewrite (Hold r Ha) in Hr. rewrite Hr in Ha. now destruct Ha.
Qed.

Lemma spread_freshIn (h : store) (tasks : loc) (l : list Task.t) :
  h !! tasks = Some l ->
  exists r h', spread tasks h = (r, h') /\ freshIn h h' r l.
Proof.
  intros H. unfold spread, bind, read. rewrite H. simpl.
  apply alloc_freshIn. auto.
Qed.

Lemma arrayFilter_freshIn (h0 h : store) (r : loc) (l : list Task.t)
    (p : Task.t -> bool) :
  freshIn h0 h r l ->
  exists r' h', arrayFilter p r h = (r', h') /\ freshIn h0 h' r' (List.filter p l).
Proof.
  intros (Hr & _ & Hold). unfold arrayFilter, bind, read. rewrite Hr. simpl.
  now apply alloc_freshIn.
Qed.

Lemma arraySort_freshIn (h0 h : store) (r : loc) (l : list Task.t)
    (cmp : Task.t -> Task.t -> JS.num) :
  freshIn h0 h r l ->
  exists h', arraySort cmp r h = (r, h') /\ freshIn h0 h' r (JS.sort cmp l).
Proof.
  intros (Hr & Hnew & Hold). unfold arraySort. rewrite Hr. simpl.
  eexists. split; [reflexivity|]. repeat split.
  - apply lookup_insert_eq.
  - exact Hnew.
  - intros a Ha. rewrite lookup_insert_ne; [now apply Hold|].
    intros <-. rewrite Hnew in Ha. now destruct Ha.
Qed.

(** A filter that a control switches on or off. *)
Lemma optional_filter_freshIn (h0 h : store) (r : loc) (l : list Task.t)
    (on : bool) (p : Task.t -> bool) :
  freshIn h0 h r l ->
  exists r' h', (if on then arrayFilter p r else ret r) h = (r', h')
    /\ freshIn h0 h' r' (List.filter (fun t => if on then p t else true) l).
Proof.
  intros H. destruct on.
  - now apply arrayFilter_freshIn.
  - exists r, h. split; [reflexivity|]. now rewrite filter_all.
Qed.

(** [visibleTasks] returns a new array that holds [visibleList] of the
    tasks, and leaves every array of the store as it was. *)
Lemma visibleTasks_run (now : Z) (filter priorityF searchQ sortBy : string)
    (tasks : loc) (h : store) (l : list Task.t) :
  h !! tasks = Some l ->
  exists r h',
    visibleTasks now filter priorityF searchQ sortBy tasks h = (r, h')
    /\ freshIn h h' r (visibleList now filter priorityF searchQ sortBy l).
Proof.
  intros Hl. unfold visibleTasks, visibleList.
  destruct (spread_freshIn h tasks l Hl) as (r1 & h1 & E1 & F1).
  rewrite (bind_run _ _ _ _ _ E1).
  assert (S2 : exists r2 h2,
    (if String.eqb filter "today"
     then arrayFilter (fun t => isToday now (Task.due t)) r1
     else if String.eqb filter "pending"
     then arrayFilter (fun t => String.eqb (Task.status t) "pending") r1
     else if String.eqb filter "done"
     then arrayFilter (fun t => String.eqb (Task.status t) "done") r1
     else if negb (String.eqb filter "all")
     then arrayFilter (fun t => String.eqb (Task.category t) filter) r1
     else ret r1) h1 = (r2, h2)
    /\ freshIn h h2 r2 (List.filter (viewKeeps now filter) l)).
  { unfold viewKeeps.
    destruct (String.eqb filter "today"); [now apply arrayFilter_freshIn|].
    destruct (String.eqb filter "pending"); [now apply arrayFilter_freshIn|].
    destruct (String.eqb filter "done"); [now apply arrayFilter_freshIn|].
    destruct (String.eqb filter "all"); simpl; [|now apply arrayFilter_freshIn].
    exists r1, h1. split; [reflexivity|]. now rewrite filter_all. }
  destruct S2 as (r2 & h2 & E2 & F2). rewrite (bind_run _ _ _ _ _ E2).
  destruct (optional_filter_freshIn h h2 r2 _ (negb (String.eqb priorityF "all"))
              (fun t => String.eqb (Task.priority t) priorityF) F2)
    as (r3 & h3 & E3 & F3).
  rewrite (bind_run _ _ _ _ _ E3).
  destruct (optional_filter_freshIn h h3 r3 _ (JS.truthy (Some searchQ))
              (searchHit (JS.toLowerCase searchQ)) F3)
    as (r4 & h4 & E4 & F4).
  rewrite (bind_run _ _ _ _ _ E4).
  destruct (arraySort_freshIn h h4 r4 _ (compareTasks sortBy) F4) as (h5 & E5 & F5).
  rewrite (bind_run _ _ _ _ _ E5).
  exists r4, h5. split; [reflexivity|].
  replace (List.filter (searchKeeps searchQ)
             (List.filter (priorityKeeps priorityF)
                (List.filter (viewKeeps now filter) l)))
    with (List.filter (fun t => if JS.truthy (Some searchQ)
                                then searchHit (JS.toLowerCase searchQ) t else true)
            (List.filter (fun t => if negb (String.eqb priorityF "all")
                                   then String.eqb (Task.priority t) priorityF else true)
               (List.filter (viewKeeps now filter) l))); [exact F5|].
  unfold searchKeeps, priorityKeeps, searchHit. rewrite truthy_string.
  destruct (String.eqb searchQ ""), (String.eqb priorityF "all"); reflexivity.
Qed.

Example visible_pending_by_creation :
  let '(r, h) := visibleTasks sampleNow "pending" "all" "" "created_desc" 1%positive sampleStore in
  List.map Task.id <$> (h !! r) = Some ["5"; "2"; "4"; "1"]
  /\ h !! 1%positive = Some sampleTasks.
Proof. vm_compute. auto. Qed.

Example visible_search_milk :
  let '(r, h) := visibleTasks sampleNow "all" "all" "MILK" "created_asc" 1%positive sampleStore in
  List.map Task.id <$> (h !! r) = Some ["1"; "3"].
Proof. vm_compute. auto. Qed.

Example visible_today :
  let '(r, h) := visibleTasks sampleNow "today" "all" "" "priority" 1%positive sampleStore in
  List.map Task.id <$> (h !! r) = Some ["3"].
Proof. vm_compute. auto. Qed.




(** The tasks of category 5 by due date: one of the three has none, and
    stands last. *)
Example visible_category_by_due :
  let '(r, h) := visibleTasks sampleNow "5" "all" "" "due_asc" 1%positive sampleStore in
  List.map Task.id <$> (h !! r) = Some ["5"; "1"; "2"].
Proof. vm_compute. auto. Qed.




(** Under due_asc the two dated pending tasks come first, in date order, and
    the two undated ones after them. *)
Example visible_pending_by_due :
  let '(r, h) := visibleTasks sampleNow "pending" "all" "" "due_asc" 1%positive sampleStore in
  List.map Task.due <$> (h !! r) = Some ["2023-12-31"; "2024-01-01"; ""; ""].
Proof. vm_compute. auto. Qed.

(** C10: computing [visibleTasks] leaves the task array as it was, the same
    tasks in the same order, like every other array of the store; the array
    it returns is another one. *)
Theorem visibleTasks_keeps_tasks (now : Z)
    (filter priorityF searchQ sortBy : string)
    (tasks : loc) (h : store) (l : list Task.t) :
  h !! tasks = Some l ->
  let '(r, h') := visibleTasks now filter priorityF searchQ sortBy tasks h in
  h' !! tasks = Some l
  /\ r <> tasks
  /\ forall a, is_Some (h !! a) -> h' !! a = h !! a.
Proof.
  intros Hl.
  destruct (visibleTasks_run now filter priorityF searchQ sortBy tasks h l Hl)
    as (r & h' & -> & Hr & Hnew & Hold).
  split; [|split].
  - rewrite <- Hl. apply Hold. rewrite Hl. eauto.
  - intros ->. congruence.
  - exact Hold.
Qed.

Lemma visibleTasks_keeps_tasks_witness :
  sampleStore !! 1%positive = Some sampleTasks
  /\ let '(r, h') := visibleTasks sampleNow "all" "all" "" "due_desc" 1%positive sampleStore in
     h' !! 1%positive = Some sampleTasks
     /\ r <> 1%positive
     /\ forall a, is_Some (sampleStore !! a) -> h' !! a = sampleStore !! a.
Proof.
  split; [reflexivity|].
  apply (visibleTasks_keeps_tasks sampleNow "all" "all" "" "due_desc"
           1%positive sampleStore sampleTasks).
  reflexivity.
Defined.

(** Sorting the task array itself would reorder it: the copy matters. *)
Example arraySort_in_place :
  List.map Task.id <$> ((arraySort (compareTasks "created_desc") 1%positive sampleStore).2 !! 1%positive)
  = Some ["5"; "2"; "3"; "4"; "1"].
Proof. vm_compute. reflexivity. Qed.

(* ================================================================= *)
(** ** Counts *)

Lemma pending_plus_done (l : list Task.t) :
  Forall statusKnown l ->
  (length (List.filter (fun t => String.eqb (Task.status t) "pending") l)
   + length (List.filter (fun t => String.eqb (Task.status t) "done") l)
   = length l)%nat.
Proof.
  induction 1 as [|t l [E | E] _ IH]; simpl; [reflexivity| |];
    rewrite E; simpl; lia.
Qed.

Lemma pending_plus_done_le (l : list Task.t) :
  (length (List.filter (fun t => String.eqb (Task.status t) "pending") l)
   + length (List.filter (fun t => String.eqb (Task.status t) "done") l)
   <= length l)%nat.
Proof.
  induction l as [|t l IH]; simpl; [lia|].
  destruct (String.eqb_spec (Task.status t) "pending") as [E|_].
  - rewrite E. simpl. lia.
  - destruct (String.eqb (Task.status t) "done"); simpl; lia.
Qed.

(** The two counts miss a task whose status is neither pending nor done. *)
Lemma pending_plus_done_all (l : list Task.t) :
  (length (List.filter (fun t => String.eqb (Task.status t) "pending") l)
   + length (List.filter (fun t => String.eqb (Task.status t) "done") l)
   = length l)%nat ->
  Forall statusKnown l.
Proof.
  induction l as [|t l IH]; [constructor|]. simpl.
  pose proof (pending_plus_done_le l) as Hle.
  destruct (String.eqb_spec (Task.status t) "pending") as [E|Hp].
  - rewrite E. simpl. intros H. constructor; [now left | apply IH; lia].
  - destruct (String.eqb_spec (Task.status t) "done") as [E|Hd]; simpl; intros H.
    + constructor; [now right | apply IH; lia].
    + lia.
Qed.

Example stats_of_sample :
  List.map value (statsCards sampleNow sampleTasks) = [5; 4; 1; 2]%nat
  /\ List.map count (navItems sampleNow sampleTasks) = [5; 1; 4; 1]%nat.
Proof. vm_compute. auto. Qed.

(** C5, as stated, fails on tasks as the page loads them: [normalizeTask]
    passes on whatever status the server sends, and a task whose status is
    neither pending nor done is counted in the total alone.  One archived
    task gives the counts 1, 0, 0, 0. *)
Lemma counts_miss_other_status :
  List.map Task.status [normalizeTask utc archivedWire] = ["archived"]
  /\ List.map value (statsCards sampleNow [normalizeTask utc archivedWire])
     = [1; 0; 0; 0]%nat
  /\ List.map count (navItems sampleNow [normalizeTask utc archivedWire])
     = [1; 0; 0; 0]%nat
  /\ ~ (exists total dueToday pending done overdue : nat,
          List.map value (statsCards sampleNow [normalizeTask utc archivedWire])
          = [total; pending; done; overdue]
          /\ List.map count (navItems sampleNow [normalizeTask utc archivedWire])
             = [total; dueToday; pending; done]
          /\ (pending + done = total)%nat
          /\ (overdue <= pending)%nat).
Proof.
  split; [reflexivity|]. split; [reflexivity|]. split; [reflexivity|].
  intros (total & dueToday & pending & done & overdue & Hs & _ & Hsum & _).
  vm_compute in Hs. injection Hs as <- <- <- <-. discriminate.
Qed.

(** C5, amended: for every list of tasks, the pending count plus the done
    count of the navigation and of the statistics cards is at most the total
    count, and equal to it exactly when the status of every task is pending
    or done; the overdue count (the pending tasks whose due date is not empty
    and strictly less, as a string, than today's date) is at most the pending
    count. *)
Theorem counts_bounded (now : Z) (tasks : list Task.t) :
  exists total dueToday pending done overdue : nat,
    List.map value (statsCards now tasks) = [total; pending; done; overdue]
    /\ List.map count (navItems now tasks) = [total; dueToday; pending; done]
    /\ (pending + done <= total)%nat
    /\ ((pending + done = total)%nat <-> Forall statusKnown tasks)
    /\ (overdue <= pending)%nat
    /\ overdue = length (List.filter
                           (fun t => String.eqb (Task.status t) "pending"
                                     && (negb (String.eqb (Task.due t) "")
                                         && JS.str_lt (Task.due t) (today now)))
                           tasks).
Proof.
  do 5 eexists. unfold statsCards, navItems. simpl.
  split; [reflexivity|]. split; [reflexivity|].
  split; [apply pending_plus_done_le|].
  split; [split; [apply pending_plus_done_all | apply pending_plus_done]|].
  split; [apply filter_length_le | reflexivity].
Qed.

(** The overdue count never exceeds the pending count, whatever the
    statuses are. *)
Lemma overdue_le_pending (now : Z) (tasks : list Task.t) :
  (length (List.filter (fun t => String.eqb (Task.status t) "pending"
                                 && isOverdue now (Task.due t)) tasks)
   <= length (List.filter (fun t => String.eqb (Task.status t) "pending") tasks))%nat.
Proof. apply filter_length_le. Qed.

(* ================================================================= *)
(** ** Soon *)

Lemma soon_range (diff : Z) :
  Qle_bool 0 (diff # 86400000) && Qle_bool (diff # 86400000) 2 = true
  <-> 0 <= diff <= 2 * JS.msPerDay.
Proof.
  rewrite andb_true_iff, !Qle_bool_iff. unfold Qle, JS.msPerDay. simpl. lia.
Qed.

Example soon_tomorrow : isSoon utc sampleNow "2024-01-06" = true.
Proof. vm_compute. reflexivity. Qed.

Example not_soon_yesterday : isSoon utc sampleNow "2024-01-04" = false.
Proof. vm_compute. reflexivity. Qed.

Example not_soon_next_week : isSoon utc sampleNow "2024-01-12" = false.
Proof. vm_compute. reflexivity. Qed.

(** C7, as the code has it: a due date is soon exactly when it is not empty
    and the start of its day is a valid time in the closed range from [now]
    to [now] plus two days, both ends included. *)
Theorem isSoon_closed_range (parse : string -> JS.num) (now : Z) (s : string) :
  isSoon parse now s = true <->
  s <> ""
  /\ exists start,
       JS.dateOf parse (JS.Str (s +:+ "T00:00:00")) = JS.Int start
       /\ now <= start <= now + 2 * JS.msPerDay.
Proof.
  unfold isSoon. rewrite truthy_string, negb_involutive.
  destruct (String.eqb_spec s "") as [->|Hs].
  - split; [discriminate | intros [H _]; now contradiction H].
  - destruct (JS.dateOf parse (JS.Str (s +:+ "T00:00:00"))) as [|start]; simpl.
    + split; [discriminate | intros (_ & start & H & _); discriminate].
    + rewrite soon_range. split.
      * intros H. split; [exact Hs|]. exists start. split; [reflexivity | lia].
      * intros (_ & start' & E & H). injection E as <-. lia.
Qed.

(** C7 as stated fails at the upper end: at midnight of 2024-01-01 (UTC) the
    day 2024-01-03 starts exactly two days later, and is soon. *)
Lemma isSoon_two_days_ahead :
  isSoon utc 1704067200000 "2024-01-03" = true
  /\ JS.dateOf utc (JS.Str ("2024-01-03" +:+ "T00:00:00")) = JS.Int 1704240000000
  /\ ~ soonAsStated 1704067200000 1704240000000.
Proof.
  split; [vm_compute; reflexivity|]. split; [vm_compute; reflexivity|].
  unfold soonAsStated, JS.msPerDay. lia.
Qed.

(** Below the upper end the two readings agree. *)
Lemma isSoon_as_stated (parse : string -> JS.num) (now start : Z) (s : string) :
  s <> "" ->
  JS.dateOf parse (JS.Str (s +:+ "T00:00:00")) = JS.Int start ->
  start <> now + 2 * JS.msPerDay ->
  (isSoon parse now s = true <-> soonAsStated now start).
Proof.
  intros Hs E Hne. unfold isSoon, soonAsStated.
  rewrite truthy_string, negb_involutive, E.
  destruct (String.eqb_spec s ""); [contradiction|].
  simpl. rewrite soon_range. lia.
Qed.

(* ================================================================= *)
(** ** Requests *)

Example request_with_token :
  headers (fetchArgs (B := unit) "GET" "/api/tasks" None sampleBrowser)
  = [("Content-Type", "application/json"); ("Authorization", "Bearer abc")].
Proof. vm_compute. reflexivity. Qed.

Example request_server_error :
  request (serverError tt) "DELETE" "/api/tasks/1" (None : option unit) sampleBrowser
  = (sampleBrowser, inl "internal error").
Proof. reflexivity. Qed.

(** C4: whatever the method, the path and the body, when the response has
    status 401 the request removes the stored token and the stored user
    name, sets the location to the login view and fails with the
    session-expired error; nothing else in the storage changes. *)
Theorem request_unauthorized {B D : Type} (fetch : Request B -> Fetched D)
    (method path : string) (body : option B) (br : Browser) (res : Response D) :
  fetch (fetchArgs method path body br) = Resolved res ->
  status res = 401 ->
  let '(br', r) := request fetch method path body br in
  r = inl sessionExpired
  /\ localStorage br' !! "tf_token" = None
  /\ localStorage br' !! "tf_user" = None
  /\ hash br' = "/login"
  /\ forall k, k <> "tf_token" -> k <> "tf_user" ->
       localStorage br' !! k = localStorage br !! k.
Proof.
  intros Hf Hs. unfold request. rewrite Hf, Hs. simpl.
  split; [reflexivity|]. split; [|split; [|split; [reflexivity|]]].
  - rewrite lookup_delete_ne by discriminate. apply lookup_delete_eq.
  - apply lookup_delete_eq.
  - intros k H1 H2. now rewrite !lookup_delete_ne by congruence.
Qed.

Lemma request_unauthorized_witness :
  unauthorized (D := WireTask.t)
      (fetchArgs "PUT" "/api/tasks/1" (Some {| Patch.status := "done" |}) sampleBrowser)
    = Resolved {| status := 401; json := inl "Unexpected end of JSON input" |}
  /\ status {| status := 401; json := @inl string (Json WireTask.t) "Unexpected end of JSON input" |} = 401
  /\ let '(br', r) := request (D := WireTask.t) unauthorized "PUT" "/api/tasks/1"
                        (Some {| Patch.status := "done" |}) sampleBrowser in
     r = inl sessionExpired
     /\ localStorage br' !! "tf_token" = None
     /\ localStorage br' !! "tf_user" = None
     /\ hash br' = "/login"
     /\ forall k, k <> "tf_token" -> k <> "tf_user" ->
          localStorage br' !! k = localStorage sampleBrowser !! k.
Proof.
  split; [reflexivity|]. split; [reflexivity|].
  apply (request_unauthorized (D := WireTask.t) unauthorized "PUT" "/api/tasks/1"
           (Some {| Patch.status := "done" |}) sampleBrowser
           {| status := 401; json := inl "Unexpected end of JSON input" |});
    reflexivity.
Defined.

(** The same from an operation of the page: the toggle that meets a 401
    ends without a session, at the login view, with the tasks as they were. *)
Example toggle_unauthorized :
  let w := toggleTaskApi utc unauthorized "1" "pending" sampleWorld in
  localStorage (browser w) = {[ "tf_theme" := "dark" ]}
  /\ hash (browser w) = "/login"
  /\ toasts w = [ToastError sessionExpired]
  /\ View.tasks (view w) = sampleTasks.
Proof. vm_compute. auto. Qed.

(* ================================================================= *)
(** ** Mutations *)

Lemma forget_error {D : Type} (r : Browser * (string + D)) (e : string) :
  (forget r).2 = inl e -> r.2 = inl e.
Proof.
  destruct r as [br [e'|d]]; unfold forget; simpl; intros H; [|discriminate].
  injection H as ->. reflexivity.
Qed.

Lemma forget_data {D : Type} (r : Browser * (string + D)) :
  (forget r).2 = inr tt -> exists d, r.2 = inr d.
Proof. destruct r as [br [e'|d]]; unfold forget; simpl; [discriminate | eauto]. Qed.

(** C6: for every mutation (toggle, task deletion, task create or update,
    category create, category deletion), if its request fails, the task list
    and the category list are as they were before, as is the active filter,
    and the error message is shown. *)
Theorem failed_mutation_changes_nothing (parse : string -> JS.num) (m : Mutation) (w : World)
    (e : string) :
  (outcome m w).2 = inl e ->
  View.tasks (view (perform parse m w)) = View.tasks (view w)
  /\ View.categories (view (perform parse m w)) = View.categories (view w)
  /\ View.filter (view (perform parse m w)) = View.filter (view w)
  /\ toasts (perform parse m w) = toasts w ++ [ToastError e].
Proof.
  destruct m as [fetch id cur | fetch id | fetch | fetch | fetch id]; simpl.
  - intros H. apply forget_error in H. unfold toggleTaskApi.
    destruct (request _ _ _ _ _) as [br [e'|d]]; simpl in H; [|discriminate].
    injection H as ->. auto.
  - intros H. apply forget_error in H.
    destruct (request _ _ _ _ _) as [br [e'|d]]; simpl in H; [|discriminate].
    injection H as ->. auto.
  - unfold saveTaskApi. simpl.
    destruct (TaskDlg.isEdit (View.taskDlg (view w))); intros H;
      apply forget_error in H;
      (destruct (request _ _ _ _ _) as [br [e'|d]]; simpl in H; [|discriminate]);
      injection H as ->; auto.
  - intros H. apply forget_error in H. unfold saveCatApi. simpl.
    destruct (request _ _ _ _ _) as [br [e'|d]]; simpl in H; [|discriminate].
    injection H as ->. auto.
  - intros H. apply forget_error in H. unfold deleteCategoryApi.
    destruct (request _ _ _ _ _) as [br [e'|d]]; simpl in H; [|discriminate].
    injection H as ->. auto.
Qed.

Lemma failed_mutation_changes_nothing_witness :
  (outcome (SaveTask offline) sampleWorld).2 = inl "Failed to fetch"
  /\ View.tasks (view (perform utc (SaveTask offline) sampleWorld)) = View.tasks (view sampleWorld)
  /\ View.categories (view (perform utc (SaveTask offline) sampleWorld))
     = View.categories (view sampleWorld)
  /\ View.filter (view (perform utc (SaveTask offline) sampleWorld)) = View.filter (view sampleWorld)
  /\ toasts (perform utc (SaveTask offline) sampleWorld)
     = toasts sampleWorld ++ [ToastError "Failed to fetch"].
Proof.
  split; [reflexivity|].
  apply (failed_mutation_changes_nothing utc (SaveTask offline) sampleWorld "Failed to fetch").
  reflexivity.
Defined.

(** What the mutations do when the request succeeds. *)
Example toggle_success :
  List.map Task.status
    (View.tasks (view (toggleTaskApi utc
       (success {| WireTask.id := JS.Number (JS.Int 4); WireTask.title := "Call Ann";
                   WireTask.desc := None; WireTask.category_id := None;
                   WireTask.priority := Some "high"; WireTask.status := Some "done";
                   WireTask.due_date := None;
                   WireTask.created_at := JS.Str "2024-01-02T09:30:00.000Z" |})
       "4" "pending" sampleWorld)))
  = ["pending"; "pending"; "done"; "done"; "pending"].
Proof. vm_compute. reflexivity. Qed.

Example create_success :
  List.map Task.id (View.tasks (view (saveTaskApi utc true (success bareWire)
     {| browser := sampleBrowser;
        view := View.mk sampleTasks sampleCats "all" "all" "created_desc" ""
                  (TaskDlg.mk true false None)
                  (TaskForm.mk "Call Ann" "" "" "medium" "" "pending")
                  false (CatForm.mk "" "#6366f1") false;
        toasts := [] |})))
  = ["8"; "1"; "2"; "3"; "4"; "5"].
Proof. vm_compute. reflexivity. Qed.

Example delete_task_declined :
  confirmDeleteTask false offline "1" sampleWorld = sampleWorld.
Proof. reflexivity. Qed.

(** C8: a category deletion whose request succeeds removes the category with
    that id from the category list and keeps the others in their order; the
    active filter becomes 'all' if it was that id and stays what it was
    otherwise; the tasks are not touched. *)
Theorem deleteCategoryApi_success (fetch : Request unit -> Fetched unit)
    (id : string) (w : World) :
  (outcome (DeleteCat fetch id) w).2 = inr tt ->
  let w' := deleteCategoryApi fetch id w in
  View.categories (view w')
    = List.filter (fun c => negb (String.eqb (Cat.id c) id)) (View.categories (view w))
  /\ (forall c, In c (View.categories (view w')) <->
                In c (View.categories (view w)) /\ Cat.id c <> id)
  /\ View.filter (view w')
     = (if String.eqb (View.filter (view w)) id then "all" else View.filter (view w))
  /\ View.tasks (view w') = View.tasks (view w).
Proof.
  simpl. intros H. apply forget_data in H. destruct H as [d H].
  unfold deleteCategoryApi.
  destruct (request _ _ _ _ _) as [br [e'|d']]; simpl in H; [discriminate|].
  simpl.
  assert (Hf : View.filter
                 (if String.eqb (View.filter (view w)) id
                  then View.setFilter "all"
                         (View.setCategories
                            (List.filter (fun c => negb (String.eqb (Cat.id c) id))
                                         (View.categories (view w))) (view w))
                  else View.setCategories
                         (List.filter (fun c => negb (String.eqb (Cat.id c) id))
                                      (View.categories (view w))) (view w))
               = if String.eqb (View.filter (view w)) id then "all"
                 else View.filter (view w)).
  { destruct (String.eqb (View.filter (view w)) id); reflexivity. }
  destruct (String.eqb (View.filter (view w)) id); simpl;
    (split; [reflexivity|]); (split; [|split; reflexivity]);
    intros c; rewrite filter_In, negb_true_iff;
    destruct (String.eqb_spec (Cat.id c) id); intuition congruence.
Qed.

Lemma deleteCategoryApi_success_witness :
  (outcome (DeleteCat (success tt) "5") sampleWorld).2 = inr tt
  /\ let w' := deleteCategoryApi (success tt) "5" sampleWorld in
     View.categories (view w')
       = List.filter (fun c => negb (String.eqb (Cat.id c) "5"))
                     (View.categories (view sampleWorld))
     /\ (forall c, In c (View.categories (view w')) <->
                   In c (View.categories (view sampleWorld)) /\ Cat.id c <> "5")
     /\ View.filter (view w')
        = (if String.eqb (View.filter (view sampleWorld)) "5" then "all"
           else View.filter (view sampleWorld))
     /\ View.tasks (view w') = View.tasks (view sampleWorld).
Proof.
  split; [reflexivity|].
  apply (deleteCategoryApi_success (success tt) "5" sampleWorld).
  reflexivity.
Defined.

Example delete_active_category :
  let w' := deleteCategoryApi (success tt) "5" sampleWorld in
  List.map Cat.name (View.categories (view w')) = ["Home"]
  /\ View.filter (view w') = "all"
  /\ toasts w' = [ToastInfo "分类已删除"].
Proof. vm_compute. auto. Qed.

Example delete_other_category :
  let w' := deleteCategoryApi (success tt) "6" sampleWorld in
  List.map Cat.name (View.categories (view w')) = ["Work"]
  /\ View.filter (view w') = "5".
Proof. vm_compute. auto. Qed.

(* ================================================================= *)
(** ** More on requests *)

Lemma request_settle {B D : Type} (fetch : Request B -> Fetched D)
    (method path : string) (body : option B) (br : Browser) :
  request fetch method path body br = settle (fetch (fetchArgs method path body br)) br.
Proof. reflexivity. Qed.

Lemma request_data_frame {B D : Type} (fetch : Request B -> Fetched D)
    (method path : string) (body : option B) (br br' : Browser) (d : D) :
  request fetch method path body br = (br', inr d) -> br' = br.
Proof.
  unfold request.
  destruct (fetch _) as [reason|res]; [discriminate|].
  destruct (status res =? 401); [discriminate|].
  destruct (json res) as [reason|parsed]; [discriminate|].
  destruct (negb (ok res)); [discriminate|].
  intros H. now injection H as <- _.
Qed.

(** X1: [request] returns data only for a response whose status lies in 200
    to 299 and whose body parses; the data is that body, and the browser is
    as it was. *)
Theorem request_data_only_when_ok {B D : Type} (fetch : Request B -> Fetched D)
    (method path : string) (body : option B) (br br' : Browser) (d : D) :
  request fetch method path body br = (br', inr d) ->
  br' = br
  /\ exists res parsed,
       fetch (fetchArgs method path body br) = Resolved res
       /\ 200 <= status res <= 299
       /\ json res = inr parsed
       /\ data parsed = d.
Proof.
  unfold request.
  destruct (fetch _) as [reason|res]; [discriminate|].
  destruct (Z.eqb_spec (status res) 401); [discriminate|].
  destruct (json res) as [reason|parsed] eqn:Ej; [discriminate|].
  destruct (ok res) eqn:Eok; simpl; [|discriminate].
  intros H. injection H as <- <-. split; [reflexivity|].
  exists res, parsed. unfold ok in Eok.
  apply andb_true_iff in Eok. destruct Eok as [H1 H2].
  apply Z.leb_le in H1, H2. auto.
Qed.

Lemma request_data_only_when_ok_witness :
  request (success bareWire) "GET" "/api/tasks/8" (None : option unit) sampleBrowser
    = (sampleBrowser, inr bareWire)
  /\ sampleBrowser = sampleBrowser
  /\ exists res parsed,
       success bareWire (fetchArgs "GET" "/api/tasks/8" (None : option unit) sampleBrowser)
         = Resolved res
       /\ 200 <= status res <= 299
       /\ json res = inr parsed
       /\ data parsed = bareWire.
Proof.
  split; [reflexivity|].
  apply (request_data_only_when_ok (success bareWire) "GET" "/api/tasks/8"
           (None : option unit) sampleBrowser sampleBrowser bareWire).
  reflexivity.
Defined.

(** X2: [request] changes the browser in one case only, the status 401: a
    network failure, a body that does not parse, an error status and a
    success all leave the storage and the location exactly as they were. *)
Theorem request_browser_frame {B D : Type} (fetch : Request B -> Fetched D)
    (method path : string) (body : option B) (br : Browser) :
  (request fetch method path body br).1
  = match fetch (fetchArgs method path body br) with
    | Resolved res =>
        if status res =? 401
        then {| localStorage := delete "tf_user" (delete "tf_token" (localStorage br));
                hash := "/login" |}
        else br
    | Rejected _ => br
    end.
Proof.
  unfold request.
  destruct (fetch _) as [reason|res]; [reflexivity|].
  destruct (status res =? 401); [reflexivity|].
  destruct (json res) as [reason|parsed]; [reflexivity|].
  destruct (negb (ok res)); reflexivity.
Qed.

(** X3: an error status other than 401 with a body that parses is reported
    with the message of the server, or with the fixed text when the body has
    no message or an empty one; the text reported is never empty. *)
Theorem request_error_message {B D : Type} (fetch : Request B -> Fetched D)
    (method path : string) (body : option B) (br : Browser)
    (res : Response D) (parsed : Json D) :
  fetch (fetchArgs method path body br) = Resolved res ->
  status res <> 401 ->
  ok res = false ->
  json res = inr parsed ->
  exists e,
    request fetch method path body br = (br, inl e)
    /\ e <> ""
    /\ (JS.truthy (message parsed) = true -> message parsed = Some e)
    /\ (JS.truthy (message parsed) = false -> e = "请求失败").
Proof.
  intros Hf Hs Hok Hj. unfold request. rewrite Hf.
  destruct (Z.eqb_spec (status res) 401); [contradiction|].
  rewrite Hj, Hok. simpl. eexists. split; [reflexivity|].
  destruct (message parsed) as [m|]; simpl.
  - destruct (String.eqb_spec m ""); simpl.
    + split; [discriminate|]. split; [discriminate | reflexivity].
    + split; [assumption|]. split; [reflexivity | discriminate].
  - split; [discriminate|]. split; [discriminate | reflexivity].
Qed.

Lemma request_error_message_witness :
  serverError tt (fetchArgs "DELETE" "/api/tasks/1" (None : option unit) sampleBrowser)
    = Resolved {| status := 500;
                  json := inr {| message := Some "internal error"; data := tt |} |}
  /\ exists e,
       request (serverError tt) "DELETE" "/api/tasks/1" (None : option unit) sampleBrowser
         = (sampleBrowser, inl e)
       /\ e <> ""
       /\ (JS.truthy (Some "internal error") = true -> Some "internal error" = Some e)
       /\ (JS.truthy (Some "internal error") = false -> e = "请求失败").
Proof.
  split; [reflexivity|].
  apply (request_error_message (serverError tt) "DELETE" "/api/tasks/1"
           (None : option unit) sampleBrowser
           {| status := 500; json := inr {| message := Some "internal error"; data := tt |} |}
           {| message := Some "internal error"; data := tt |});
    [reflexivity | discriminate | reflexivity | reflexivity].
Defined.

(** X4: the request carries an [Authorization] header exactly when a token
    that is not empty is stored, and its value is [Bearer] and that token;
    the content type is always there. *)
Theorem fetchArgs_bearer {B : Type} (method path : string) (body : option B)
    (br : Browser) (v : string) :
  (In ("Authorization", v) (headers (fetchArgs method path body br)) <->
   exists token, localStorage br !! "tf_token" = Some token
                 /\ token <> "" /\ v = "Bearer " +:+ token)
  /\ In ("Content-Type", "application/json") (headers (fetchArgs method path body br)).
Proof.
  unfold fetchArgs. cbn [headers]. split; [|now left].
  destruct (localStorage br !! "tf_token") as [t|]; simpl.
  - destruct (String.eqb_spec t "") as [->|Ht]; simpl.
    + split; [intros [H|[]]; discriminate|].
      intros (t & E & Ht & _). injection E as <-. contradiction.
    + split.
      * intros [H|[H|[]]]; [discriminate|]. injection H as <-. eauto.
      * intros (t' & E & _ & ->). injection E as <-. right. now left.
  - split; [intros [H|[]]; discriminate|]. intros (t & E & _). discriminate.
Qed.

(* ================================================================= *)
(** ** Session, routes and theme *)

Lemma truthy_lookup_insert (m : gmap string string) (v : string) :
  JS.truthy (<["tf_user" := "x"]> (<["tf_token" := v]> m) !! "tf_token")
  = negb (String.eqb v "").
Proof.
  rewrite lookup_insert_ne by discriminate. now rewrite lookup_insert_eq.
Qed.

Lemma push_tasks (br : Browser) :
  hash (push "/tasks" br)
  = if JS.truthy (localStorage br !! "tf_token") then "/tasks" else "/login".
Proof.
  unfold push, beforeEach. simpl.
  destruct (JS.truthy (localStorage br !! "tf_token")); reflexivity.
Qed.

Example login_sample :
  let p := submitLogin true (success annAuth) annForm guestEntrance in
  localStorage (Entrance.browser p)
    = {[ "tf_theme" := "dark"; "tf_token" := "t0k3n"; "tf_user" := "ann" ]}
  /\ hash (Entrance.browser p) = "/tasks"
  /\ Entrance.toasts p = [ToastSuccess "欢迎回来，ann"].
Proof. vm_compute. auto. Qed.

(** A login answered 401 is reported as an expired session: the message of
    the server is not read. *)
Example login_wrong_password :
  Entrance.toasts (submitLogin true unauthorized annForm guestEntrance)
  = [ToastError sessionExpired].
Proof. reflexivity. Qed.

(** The storage that [enterTasks] leaves is the one of the theme part of
    the page's [setup]. *)
Lemma enterTasks_setupTheme (darkClass0 : bool) (br : Browser) :
  localStorage (enterTasks br) = themeStore (setupTheme darkClass0 (localStorage br)).
Proof. reflexivity. Qed.

(** A first login, with no theme stored yet: the tasks page stores the
    light theme. *)
Example first_login :
  let p := submitLogin true (success annAuth) annForm
             {| Entrance.browser := {| localStorage := ∅; hash := "/login" |};
                Entrance.loading := false;
                Entrance.toasts := [] |} in
  localStorage (Entrance.browser p)
    = {[ "tf_theme" := "light"; "tf_token" := "t0k3n"; "tf_user" := "ann" ]}
  /\ hash (Entrance.browser p) = "/tasks".
Proof. vm_compute. auto. Qed.

(** X5: a login and a registration that succeed store the token and the
    user name that the server sent.  When the token is not empty the page
    ends at [/tasks], where the tasks page, as it is set up, stores the
    theme: dark if dark was stored, light otherwise; when the token is empty
    the guard sends the page back to [/login] and the stored theme stays as
    it was.  Every other key of the storage is left alone.  From then on
    every request carries that token as its bearer credential. *)
Theorem sign_in_opens_session (fetch : Request Credentials.t -> Fetched Auth.t)
    (form : Credentials.t) (p : Entrance.t) (data : Auth.t) (register : bool) :
  (request fetch "POST" (if register then "/api/auth/register" else "/api/auth/login")
     (Some form) (Entrance.browser p)).2 = inr data ->
  let p' := if register then submitRegister true fetch form p
            else submitLogin true fetch form p in
  let br' := Entrance.browser p' in
  let theme := localStorage (Entrance.browser p) !! "tf_theme" in
  localStorage br' !! "tf_token" = Some (Auth.token data)
  /\ localStorage br' !! "tf_user" = Some (Auth.username data)
  /\ localStorage br' !! "tf_theme"
     = (if String.eqb (Auth.token data) "" then theme
        else Some (if bool_decide (theme = Some "dark") then "dark" else "light"))
  /\ (forall k, k <> "tf_token" -> k <> "tf_user" -> k <> "tf_theme" ->
        localStorage br' !! k = localStorage (Entrance.browser p) !! k)
  /\ hash br' = (if String.eqb (Auth.token data) "" then "/login" else "/tasks")
  /\ (Auth.token data <> "" ->
      forall (B : Type) (method path : string) (body : option B),
        In ("Authorization", "Bearer " +:+ Auth.token data)
           (headers (fetchArgs method path body br'))).
Proof.
  intros H. cbv zeta.
  assert (G : forall br : Browser,
    br = Entrance.browser p ->
    let b := arrive (push "/tasks" (storeSession data br)) in
    let theme := localStorage (Entrance.browser p) !! "tf_theme" in
    localStorage b !! "tf_token" = Some (Auth.token data)
    /\ localStorage b !! "tf_user" = Some (Auth.username data)
    /\ localStorage b !! "tf_theme"
       = (if String.eqb (Auth.token data) "" then theme
          else Some (if bool_decide (theme = Some "dark") then "dark" else "light"))
    /\ (forall k, k <> "tf_token" -> k <> "tf_user" -> k <> "tf_theme" ->
          localStorage b !! k = localStorage (Entrance.browser p) !! k)
    /\ hash b = (if String.eqb (Auth.token data) "" then "/login" else "/tasks")
    /\ (Auth.token data <> "" ->
        forall (B : Type) (method path : string) (body : option B),
          In ("Authorization", "Bearer " +:+ Auth.token data)
             (headers (fetchArgs method path body b)))).
  { intros br ->. cbv zeta.
    set (s := storeSession data (Entrance.browser p)).
    assert (Hh : hash (push "/tasks" s)
                 = if String.eqb (Auth.token data) "" then "/login" else "/tasks").
    { rewrite push_tasks. unfold s. simpl.
      rewrite lookup_insert_ne by discriminate. rewrite lookup_insert_eq. simpl.
      destruct (String.eqb (Auth.token data) ""); reflexivity. }
    assert (Hs : localStorage (push "/tasks" s)
                 = <["tf_user" := Auth.username data]>
                     (<["tf_token" := Auth.token data]>
                        (localStorage (Entrance.browser p)))) by reflexivity.
    assert (Hb : arrive (push "/tasks" s)
                 = if String.eqb (Auth.token data) "" then push "/tasks" s
                   else enterTasks (push "/tasks" s)).
    { unfold arrive. rewrite Hh.
      destruct (String.eqb (Auth.token data) ""); reflexivity. }
    rewrite Hb.
    assert (Ht : localStorage (if String.eqb (Auth.token data) "" then push "/tasks" s
                               else enterTasks (push "/tasks" s))
                 !! "tf_token" = Some (Auth.token data)).
    { destruct (String.eqb (Auth.token data) ""); cbn [enterTasks localStorage];
        rewrite ?Hs; rewrite ?(lookup_insert_ne _ "tf_theme") by discriminate;
        rewrite lookup_insert_ne by discriminate; apply lookup_insert_eq. }
    split; [exact Ht|]. split; [|split; [|split; [|split]]].
    - destruct (String.eqb (Auth.token data) ""); cbn [enterTasks localStorage];
        rewrite ?Hs; rewrite ?(lookup_insert_ne _ "tf_theme") by discriminate;
        apply lookup_insert_eq.
    - destruct (String.eqb (Auth.token data) ""); cbn [enterTasks localStorage];
        rewrite ?Hs.
      + now rewrite !lookup_insert_ne by discriminate.
      + rewrite lookup_insert_eq. rewrite !lookup_insert_ne by discriminate.
        reflexivity.
    - intros k H1 H2 H3.
      destruct (String.eqb (Auth.token data) ""); cbn [enterTasks localStorage];
        rewrite ?Hs; now rewrite !lookup_insert_ne by congruence.
    - destruct (String.eqb (Auth.token data) ""); [exact Hh | exact Hh].
    - intros Hne B method path body. unfold fetchArgs. cbn [headers].
      rewrite Ht. simpl.
      destruct (String.eqb_spec (Auth.token data) ""); [contradiction|].
      right. now left. }
  destruct register; [unfold submitRegister | unfold submitLogin]; simpl;
    (destruct (request _ _ _ _ _) as [br [e|d]] eqn:E; simpl in H; [discriminate|]);
    injection H as ->; apply request_data_frame in E; subst br; simpl; now apply G.
Qed.

Lemma sign_in_opens_session_witness :
  (request (success annAuth) "POST" "/api/auth/login" (Some annForm)
     (Entrance.browser guestEntrance)).2 = inr annAuth
  /\ let br' := Entrance.browser (submitLogin true (success annAuth) annForm guestEntrance) in
     localStorage br' !! "tf_token" = Some "t0k3n"
     /\ localStorage br' !! "tf_user" = Some "ann"
     /\ localStorage br' !! "tf_theme" = Some "dark"
     /\ (forall k, k <> "tf_token" -> k <> "tf_user" -> k <> "tf_theme" ->
           localStorage br' !! k = localStorage (Entrance.browser guestEntrance) !! k)
     /\ hash br' = "/tasks"
     /\ ("t0k3n" <> "" ->
         forall (B : Type) (method path : string) (body : option B),
           In ("Authorization", "Bearer t0k3n") (headers (fetchArgs method path body br'))).
Proof.
  split; [reflexivity|].
  apply (sign_in_opens_session (success annAuth) annForm guestEntrance annAuth false).
  reflexivity.
Defined.

(** X6: a confirmed logout removes the token and the user name, keeps the
    rest of the storage, the tasks and the categories, and puts the page at
    [/login]; after it a navigation to [/tasks] ends at [/login] and no
    request carries a bearer credential.  A declined logout changes
    nothing. *)
Theorem logout_closes_session (w : World) :
  let w' := logout true w in
  localStorage (browser w') !! "tf_token" = None
  /\ localStorage (browser w') !! "tf_user" = None
  /\ (forall k, k <> "tf_token" -> k <> "tf_user" ->
        localStorage (browser w') !! k = localStorage (browser w) !! k)
  /\ hash (browser w') = "/login"
  /\ hash (push "/tasks" (browser w')) = "/login"
  /\ (forall (B : Type) (method path : string) (body : option B),
        headers (fetchArgs method path body (browser w'))
        = [("Content-Type", "application/json")])
  /\ view w' = view w
  /\ logout false w = w.
Proof.
  cbv zeta. unfold logout. cbn [browser view].
  set (b := {| localStorage := delete "tf_user" (delete "tf_token" (localStorage (browser w)));
               hash := hash (browser w) |}).
  assert (Ht : localStorage (push "/login" b) !! "tf_token" = None).
  { simpl. rewrite lookup_delete_ne by discriminate. apply lookup_delete_eq. }
  split; [exact Ht|]. split; [simpl; apply lookup_delete_eq|].
  split; [|split; [reflexivity|split; [|split; [|split; reflexivity]]]].
  - intros k H1 H2. simpl. now rewrite !lookup_delete_ne by congruence.
  - rewrite push_tasks. now rewrite Ht.
  - intros B method path body. unfold fetchArgs. cbn [headers]. now rewrite Ht.
Qed.

(** X7: after a request that met the status 401, a navigation to [/tasks]
    ends at [/login], and the next request carries no bearer credential. *)
Theorem expired_session_locks_tasks {B D : Type} (fetch : Request B -> Fetched D)
    (method path : string) (body : option B) (br : Browser) (res : Response D) :
  fetch (fetchArgs method path body br) = Resolved res ->
  status res = 401 ->
  let br' := (request fetch method path body br).1 in
  hash (push "/tasks" br') = "/login"
  /\ forall (B' : Type) (method' path' : string) (body' : option B'),
       headers (fetchArgs method' path' body' br') = [("Content-Type", "application/json")].
Proof.
  intros Hf Hs. cbv zeta. unfold request. rewrite Hf, Hs.
  change (401 =? 401) with true. cbn [fst].
  set (b := {| localStorage := delete "tf_user" (delete "tf_token" (localStorage br));
               hash := "/login" |}).
  assert (Ht : localStorage b !! "tf_token" = None).
  { simpl. rewrite lookup_delete_ne by discriminate. apply lookup_delete_eq. }
  split.
  - rewrite push_tasks. now rewrite Ht.
  - intros B' method' path' body'. unfold fetchArgs. cbn [headers]. now rewrite Ht.
Qed.

Lemma expired_session_locks_tasks_witness :
  unauthorized (D := unit) (fetchArgs "GET" "/api/tasks" (None : option unit) sampleBrowser)
    = Resolved {| status := 401; json := inl "Unexpected end of JSON input" |}
  /\ let br' := (request (D := unit) unauthorized "GET" "/api/tasks"
                   (None : option unit) sampleBrowser).1 in
     hash (push "/tasks" br') = "/login"
     /\ forall (B' : Type) (method' path' : string) (body' : option B'),
          headers (fetchArgs method' path' body' br') = [("Content-Type", "application/json")].
Proof.
  split; [reflexivity|].
  apply (expired_session_locks_tasks (D := unit) unauthorized "GET" "/api/tasks"
           (None : option unit) sampleBrowser
           {| status := 401; json := inl "Unexpected end of JSON input" |});
    reflexivity.
Defined.

Example tasks_route_with_session : hash (push "/tasks" sampleBrowser) = "/tasks".
Proof. reflexivity. Qed.

Example root_route : hash (push "/" sampleBrowser) = "/login".
Proof. reflexivity. Qed.

(** X8: the theme chosen survives a reload, and so it does a logout and an
    expired session, which leave its key alone: the page set up again from
    the storage shows the theme it showed.  The class of the document always
    follows the flag, and two toggles give back the theme as it was. *)
Theorem theme_persists (darkClass0 darkClass1 : bool) (storage : gmap string string) :
  let t := setupTheme darkClass0 storage in
  let t' := toggleTheme t in
  darkClass t = isDark t
  /\ darkClass t' = isDark t'
  /\ isDark t' = negb (isDark t)
  /\ isDark (setupTheme darkClass1 (themeStore t')) = isDark t'
  /\ isDark (setupTheme darkClass1
               (delete "tf_user" (delete "tf_token" (themeStore t')))) = isDark t'
  /\ toggleTheme t' = t.
Proof.
  cbv zeta. unfold toggleTheme, setupTheme, applyTheme. simpl.
  split; [reflexivity|]. split; [reflexivity|]. split; [reflexivity|].
  split; [|split].
  - rewrite lookup_insert_eq.
    destruct (bool_decide (storage !! "tf_theme" = Some "dark")); reflexivity.
  - rewrite !lookup_delete_ne by discriminate. rewrite lookup_insert_eq.
    destruct (bool_decide (storage !! "tf_theme" = Some "dark")); reflexivity.
  - rewrite negb_involutive, !insert_insert_eq. reflexivity.
Qed.

(* ================================================================= *)
(** ** Successful mutations *)

Lemma findIndex_Some {A : Type} (p : A -> bool) (l : list A) (i : nat) :
  findIndex p l = Some i ->
  (i < length l)%nat
  /\ (exists x, l !! i = Some x /\ p x = true)
  /\ forall j y, (j < i)%nat -> l !! j = Some y -> p y = false.
Proof.
  revert i. induction l as [|x l IH]; intros i; simpl; [discriminate|].
  destruct (p x) eqn:Ex.
  - intros H. injection H as <-. split; [simpl; lia|]. split; [eauto|]. intros; lia.
  - destruct (findIndex p l) as [k|]; simpl; [|discriminate].
    intros H. injection H as <-.
    destruct (IH k eq_refl) as (Hlt & Hx & Hbefore).
    split; [simpl; lia|]. split; [exact Hx|].
    intros [|j] y Hj; simpl; intros Hy.
    + now injection Hy as <-.
    + apply (Hbefore j); [lia | exact Hy].
Qed.

Lemma findIndex_None {A : Type} (p : A -> bool) (l : list A) :
  findIndex p l = None <-> Forall (fun x => p x = false) l.
Proof.
  induction l as [|x l IH]; simpl; [split; [constructor | reflexivity]|].
  destruct (p x) eqn:Ex.
  - split; [discriminate|]. intros H. inversion H; congruence.
  - destruct (findIndex p l) as [k|]; simpl.
    + split; [discriminate|]. intros H. inversion H; subst.
      apply IH in H3. discriminate.
    + split; [|reflexivity]. intros _. constructor; [exact Ex | now apply IH].
Qed.

(** The assignment [a[idx] = x] at the index [findIndex] gave, or nothing
    when it gave -1: the array keeps its length, the first element that
    [p] holds of becomes [x], every other place is as it was. *)
Lemma replace_first {A : Type} (p : A -> bool) (x : A) (l : list A) :
  let l' := match findIndex p l with
            | Some idx => <[idx := x]> l
            | None => l
            end in
  length l' = length l
  /\ (Forall (fun y => p y = false) l -> l' = l)
  /\ forall i y, l !! i = Some y -> p y = true ->
       (forall j z, (j < i)%nat -> l !! j = Some z -> p z = false) ->
       l' !! i = Some x /\ forall j, j <> i -> l' !! j = l !! j.
Proof.
  cbv zeta. destruct (findIndex p l) as [idx|] eqn:E.
  - destruct (findIndex_Some p l idx E) as (Hlt & (x0 & Hx0 & Hp0) & Hbefore).
    split; [apply length_insert|]. split.
    + intros H. rewrite Forall_lookup in H. specialize (H idx x0 Hx0). congruence.
    + intros i y Hy Hp Hfirst.
      assert (i = idx) as ->.
      { destruct (Nat.lt_trichotomy i idx) as [H|[H|H]]; [|exact H|].
        - rewrite (Hbefore i y H Hy) in Hp. discriminate.
        - rewrite (Hfirst idx x0 H Hx0) in Hp0. discriminate. }
      split; [now apply list_lookup_insert_eq|].
      intros j Hj. now apply list_lookup_insert_ne.
  - split; [reflexivity|]. split; [reflexivity|].
    intros i y Hy Hp _. apply findIndex_None in E.
    rewrite Forall_lookup in E. specialize (E i y Hy). congruence.
Qed.

(** X9: a status toggle whose request succeeds sends the opposite status
    (pending for a task that is done, done otherwise) and puts the
    normalized answer of the server in the place of the first task with
    that id; the list keeps its length, every other task stays where it
    was, and a list without that id is not changed.  Categories and filter
    are not touched. *)
Theorem toggle_replaces_one_task (parse : string -> JS.num)
    (fetch : Request Patch.t -> Fetched WireTask.t)
    (id currentStatus : string) (w : World) (updated : WireTask.t) :
  (request fetch "PUT" ("/api/tasks/" +:+ id)
     (Some {| Patch.status := if String.eqb currentStatus "done" then "pending" else "done" |})
     (browser w)).2 = inr updated ->
  let w' := toggleTaskApi parse fetch id currentStatus w in
  let l := View.tasks (view w) in
  let l' := View.tasks (view w') in
  length l' = length l
  /\ (Forall (fun t => Task.id t <> id) l -> l' = l)
  /\ (forall i t, l !! i = Some t -> Task.id t = id ->
        (forall j t', (j < i)%nat -> l !! j = Some t' -> Task.id t' <> id) ->
        l' !! i = Some (normalizeTask parse updated)
        /\ forall j, j <> i -> l' !! j = l !! j)
  /\ View.categories (view w') = View.categories (view w)
  /\ View.filter (view w') = View.filter (view w)
  /\ browser w' = browser w.
Proof.
  intros H. cbv zeta. unfold toggleTaskApi.
  destruct (request _ _ _ _ _) as [br [e|d]] eqn:E; simpl in H; [discriminate|].
  injection H as ->. apply request_data_frame in E. subst br. simpl.
  destruct (replace_first (fun t => String.eqb (Task.id t) id)
              (normalizeTask parse updated) (View.tasks (view w)))
    as (Hlen & Hnone & Hfirst).
  split; [exact Hlen|]. split; [|split; [|auto]].
  - intros Hall. apply Hnone. eapply Forall_impl; [exact Hall|].
    intros t Ht. now apply String.eqb_neq.
  - intros i t Ht Hid Hbefore. apply (Hfirst i t Ht).
    + now apply String.eqb_eq.
    + intros j z Hj Hz. apply String.eqb_neq. now apply (Hbefore j z).
Qed.

Lemma toggle_replaces_one_task_witness :
  (request (success bareWire) "PUT" ("/api/tasks/" +:+ "4")
     (Some {| Patch.status := if String.eqb "pending" "done" then "pending" else "done" |})
     (browser sampleWorld)).2 = inr bareWire
  /\ let w' := toggleTaskApi utc (success bareWire) "4" "pending" sampleWorld in
     let l := View.tasks (view sampleWorld) in
     let l' := View.tasks (view w') in
     length l' = length l
     /\ (Forall (fun t => Task.id t <> "4") l -> l' = l)
     /\ (forall i t, l !! i = Some t -> Task.id t = "4" ->
           (forall j t', (j < i)%nat -> l !! j = Some t' -> Task.id t' <> "4") ->
           l' !! i = Some (normalizeTask utc bareWire)
           /\ forall j, j <> i -> l' !! j = l !! j)
     /\ View.categories (view w') = View.categories (view sampleWorld)
     /\ View.filter (view w') = View.filter (view sampleWorld)
     /\ browser w' = browser sampleWorld.
Proof.
  split; [reflexivity|].
  apply (toggle_replaces_one_task utc (success bareWire) "4" "pending" sampleWorld bareWire).
  reflexivity.
Defined.

(** X10: editing a task through the dialog.  After [openTaskDlg(task)] the
    save sends PUT to [/api/tasks/] and the id of that task, with the
    payload made from the fields of the task; when the request succeeds the
    normalized answer takes the place of the first task with that id, the
    list keeps its length, the dialog closes and [saving] is off. *)
Theorem edit_dialog_updates_task (parse : string -> JS.num)
    (fetch : Request Payload.t -> Fetched WireTask.t)
    (task : Task.t) (w : World) (updated : WireTask.t) :
  (request fetch "PUT" ("/api/tasks/" +:+ Task.id task)
     (Some (taskToPayload (formOfTask task))) (browser w)).2 = inr updated ->
  let w' := saveTaskApi parse true fetch (openTaskDlg (Some task) w) in
  let l := View.tasks (view w) in
  let l' := View.tasks (view w') in
  length l' = length l
  /\ (forall i t, l !! i = Some t -> Task.id t = Task.id task ->
        (forall j t', (j < i)%nat -> l !! j = Some t' -> Task.id t' <> Task.id task) ->
        l' !! i = Some (normalizeTask parse updated)
        /\ forall j, j <> i -> l' !! j = l !! j)
  /\ (Forall (fun t => Task.id t <> Task.id task) l -> l' = l)
  /\ TaskDlg.show (View.taskDlg (view w')) = false
  /\ View.saving (view w') = false
  /\ toasts w' = toasts w ++ [ToastSuccess "任务已更新"].
Proof.
  intros H. cbv zeta. unfold saveTaskApi, openTaskDlg. simpl.
  destruct (request _ _ _ _ _) as [br [e|d]] eqn:E; simpl in H; [discriminate|].
  injection H as ->. simpl.
  destruct (replace_first (fun t => bool_decide (Some (Task.id t) = Some (Task.id task)))
              (normalizeTask parse updated) (View.tasks (view w)))
    as (Hlen & Hnone & Hfirst).
  split; [exact Hlen|]. split; [|split; [|auto]].
  - intros i t Ht Hid Hbefore. apply (Hfirst i t Ht).
    + apply bool_decide_eq_true. now rewrite Hid.
    + intros j z Hj Hz. apply bool_decide_eq_false. intros Heq.
      injection Heq as Heq. now apply (Hbefore j z Hj Hz).
  - intros Hall. apply Hnone. eapply Forall_impl; [exact Hall|].
    intros t Ht. apply bool_decide_eq_false. intros Heq. injection Heq as Heq. contradiction.
Qed.

Lemma edit_dialog_updates_task_witness :
  (request (success milkWire) "PUT"
     ("/api/tasks/" +:+ Task.id (sampleTask "1" "Buy Milk" "" "5" "low" "pending" "2024-01-01" 100))
     (Some (taskToPayload (formOfTask (sampleTask "1" "Buy Milk" "" "5" "low" "pending" "2024-01-01" 100))))
     (browser sampleWorld)).2 = inr milkWire
  /\ length (View.tasks (view (saveTaskApi utc true (success milkWire)
               (openTaskDlg (Some (sampleTask "1" "Buy Milk" "" "5" "low" "pending" "2024-01-01" 100))
                  sampleWorld))))
     = length (View.tasks (view sampleWorld)).
Proof.
  split; [reflexivity|].
  apply (edit_dialog_updates_task utc (success milkWire)
           (sampleTask "1" "Buy Milk" "" "5" "low" "pending" "2024-01-01" 100)
           sampleWorld milkWire).
  reflexivity.
Defined.

(** X11: a new task.  With the dialog in create mode the save sends POST to
    [/api/tasks] with the payload of the form; when the request succeeds the
    normalized answer becomes the first task, in front of the old list as it
    was, the dialog closes and [saving] is off.  A form that is not valid
    sends nothing and changes nothing, whatever the network would answer. *)
Theorem create_prepends_task (parse : string -> JS.num)
    (fetch : Request Payload.t -> Fetched WireTask.t)
    (w : World) (created : WireTask.t) :
  TaskDlg.isEdit (View.taskDlg (view w)) = false ->
  (request fetch "POST" "/api/tasks"
     (Some (taskToPayload (View.taskForm (view w)))) (browser w)).2 = inr created ->
  let w' := saveTaskApi parse true fetch w in
  View.tasks (view w') = normalizeTask parse created :: View.tasks (view w)
  /\ View.categories (view w') = View.categories (view w)
  /\ TaskDlg.show (View.taskDlg (view w')) = false
  /\ View.saving (view w') = false
  /\ toasts w' = toasts w ++ [ToastSuccess "任务创建成功"]
  /\ forall fetch', saveTaskApi parse false fetch' w = w.
Proof.
  intros Hmode H. cbv zeta. unfold saveTaskApi. simpl. rewrite Hmode.
  destruct (request _ _ _ _ _) as [br [e|d]] eqn:E; simpl in H; [discriminate|].
  injection H as ->. simpl. auto 10.
Qed.

Lemma create_prepends_task_witness :
  TaskDlg.isEdit (View.taskDlg (view (openTaskDlg None sampleWorld))) = false
  /\ (request (success bareWire) "POST" "/api/tasks"
        (Some (taskToPayload (View.taskForm (view (openTaskDlg None sampleWorld)))))
        (browser (openTaskDlg None sampleWorld))).2 = inr bareWire
  /\ View.tasks (view (saveTaskApi utc true (success bareWire) (openTaskDlg None sampleWorld)))
     = normalizeTask utc bareWire :: View.tasks (view (openTaskDlg None sampleWorld)).
Proof.
  split; [reflexivity|]. split; [reflexivity|].
  apply (create_prepends_task utc (success bareWire) (openTaskDlg None sampleWorld) bareWire);
    reflexivity.
Defined.

(** X12: a confirmed task deletion whose request succeeds removes every task
    with that id and keeps the others in their order; categories and filter
    are not touched.  A declined confirmation sends nothing and changes
    nothing. *)
Theorem delete_task_success (fetch : Request unit -> Fetched unit)
    (id : string) (w : World) :
  (request fetch "DELETE" ("/api/tasks/" +:+ id) None (browser w)).2 = inr tt ->
  let w' := confirmDeleteTask true fetch id w in
  View.tasks (view w')
    = List.filter (fun t => negb (String.eqb (Task.id t) id)) (View.tasks (view w))
  /\ (forall t, In t (View.tasks (view w')) <->
                In t (View.tasks (view w)) /\ Task.id t <> id)
  /\ (length (View.tasks (view w')) <= length (View.tasks (view w)))%nat
  /\ View.categories (view w') = View.categories (view w)
  /\ View.filter (view w') = View.filter (view w)
  /\ forall fetch', confirmDeleteTask false fetch' id w = w.
Proof.
  intros H. cbv zeta. unfold confirmDeleteTask.
  destruct (request _ _ _ _ _) as [br [e|[]]] eqn:E; simpl in H; [discriminate|].
  simpl. split; [reflexivity|]. split; [|split; [|auto]].
  - intros t. rewrite filter_In, negb_true_iff.
    destruct (String.eqb_spec (Task.id t) id); intuition congruence.
  - apply List.filter_length_le.
Qed.

Lemma delete_task_success_witness :
  (request (success tt) "DELETE" ("/api/tasks/" +:+ "3") (None : option unit) (browser sampleWorld)).2 = inr tt
  /\ List.map Task.id (View.tasks (view (confirmDeleteTask true (success tt) "3" sampleWorld)))
     = ["1"; "2"; "4"; "5"].
Proof.
  split; [reflexivity|].
  destruct (delete_task_success (success tt) "3" sampleWorld eq_refl) as (-> & _).
  reflexivity.
Defined.

(** X13: a category.  The save sends POST to [/api/categories] with the
    name trimmed and the colour of the form; when the request succeeds the
    normalized answer is added after the categories there were, the dialog
    closes, and the tasks and the filter are not touched. *)
Theorem create_appends_category (fetch : Request CatForm.t -> Fetched WireCat.t)
    (w : World) (created : WireCat.t) :
  (request fetch "POST" "/api/categories"
     (Some {| CatForm.name := JS.trim (CatForm.name (View.catForm (view w)));
              CatForm.color := CatForm.color (View.catForm (view w)) |})
     (browser w)).2 = inr created ->
  let w' := saveCatApi true fetch w in
  View.categories (view w')
    = View.categories (view w)
      ++ [ {| Cat.id := JS.to_string (WireCat.id created);
              Cat.name := WireCat.name created;
              Cat.color := WireCat.color created |} ]
  /\ View.tasks (view w') = View.tasks (view w)
  /\ View.filter (view w') = View.filter (view w)
  /\ View.catDlgShow (view w') = false
  /\ View.saving (view w') = false.
Proof.
  intros H. cbv zeta. unfold saveCatApi. simpl.
  destruct (request _ _ _ _ _) as [br [e|d]] eqn:E; simpl in H; [discriminate|].
  injection H as ->. simpl. auto.
Qed.

Lemma create_appends_category_witness :
  (request (success workCat) "POST" "/api/categories"
     (Some {| CatForm.name := JS.trim (CatForm.name (View.catForm (view sampleWorld)));
              CatForm.color := CatForm.color (View.catForm (view sampleWorld)) |})
     (browser sampleWorld)).2 = inr workCat
  /\ List.map Cat.id (View.categories (view (saveCatApi true (success workCat) sampleWorld)))
     = ["5"; "6"; "9"].
Proof.
  split; [reflexivity|].
  destruct (create_appends_category (success workCat) sampleWorld workCat eq_refl) as (-> & _).
  reflexivity.
Defined.

Lemma find_filter_out {A : Type} (p q : A -> bool) (l : list A) :
  (forall x, p x = true -> q x = false) ->
  List.find p (List.filter q l) = None.
Proof.
  intros H. induction l as [|x l IH]; simpl; [reflexivity|].
  destruct (q x) eqn:Eq; [|exact IH]. simpl.
  destruct (p x) eqn:Ep; [|exact IH]. rewrite (H x Ep) in Eq. discriminate.
Qed.

Lemma find_filter_in {A : Type} (p q : A -> bool) (l : list A) :
  (forall x, p x = true -> q x = true) ->
  List.find p (List.filter q l) = List.find p l.
Proof.
  intros H. induction l as [|x l IH]; simpl; [reflexivity|].
  destruct (q x) eqn:Eq; simpl.
  - destruct (p x); [reflexivity | exact IH].
  - destruct (p x) eqn:Ep; [|exact IH]. rewrite (H x Ep) in Eq. discriminate.
Qed.

Lemma deleteCategoryApi_view (fetch : Request unit -> Fetched unit)
    (id : string) (w : World) :
  (request fetch "DELETE" ("/api/categories/" +:+ id) None (browser w)).2 = inr tt ->
  View.categories (view (deleteCategoryApi fetch id w))
    = List.filter (fun c => negb (String.eqb (Cat.id c) id)) (View.categories (view w))
  /\ View.filter (view (deleteCategoryApi fetch id w))
     = (if String.eqb (View.filter (view w)) id then "all" else View.filter (view w))
  /\ View.tasks (view (deleteCategoryApi fetch id w)) = View.tasks (view w).
Proof.
  intros H. unfold deleteCategoryApi.
  destruct (request _ _ _ _ _) as [br [e|[]]] eqn:E; simpl in H; [discriminate|].
  cbn [view]. simpl (View.filter (View.setCategories _ _)).
  destruct (String.eqb (View.filter (view w)) id); auto.
Qed.

(** X14: after a category deletion that succeeds, [getCat] of that id is
    undefined while the tasks keep the id in their category field, so they
    show no category; [getCat] of every other id is what it was. *)
Theorem deleted_category_is_orphaned (fetch : Request unit -> Fetched unit)
    (id : string) (w : World) :
  (request fetch "DELETE" ("/api/categories/" +:+ id) None (browser w)).2 = inr tt ->
  let w' := deleteCategoryApi fetch id w in
  getCat (View.categories (view w')) id = None
  /\ (forall id', id' <> id ->
        getCat (View.categories (view w')) id' = getCat (View.categories (view w)) id')
  /\ List.map Task.category (View.tasks (view w'))
     = List.map Task.category (View.tasks (view w)).
Proof.
  intros H. cbv zeta. unfold deleteCategoryApi.
  destruct (request _ _ _ _ _) as [br [e|[]]] eqn:E; simpl in H; [discriminate|].
  assert (G : forall v : View.t,
    v = View.setCategories
          (List.filter (fun c => negb (String.eqb (Cat.id c) id)) (View.categories (view w)))
          (view w) ->
    let v' := if String.eqb (View.filter v) id then View.setFilter "all" v else v in
    View.categories v' = List.filter (fun c => negb (String.eqb (Cat.id c) id))
                           (View.categories (view w))
    /\ View.tasks v' = View.tasks (view w)).
  { intros v ->. cbv zeta. destruct (String.eqb _ id); auto. }
  cbn [view]. destruct (G _ eq_refl) as [-> ->]. unfold getCat.
  split; [|split; [|reflexivity]].
  - apply find_filter_out. intros c Hc. now rewrite Hc.
  - intros id' Hne. apply find_filter_in. intros c Hc.
    apply String.eqb_eq in Hc. apply negb_true_iff. apply String.eqb_neq. congruence.
Qed.

Lemma deleted_category_is_orphaned_witness :
  (request (success tt) "DELETE" ("/api/categories/" +:+ "5") (None : option unit) (browser sampleWorld)).2
    = inr tt
  /\ getCat (View.categories (view (deleteCategoryApi (success tt) "5" sampleWorld))) "5" = None
  /\ List.map Task.category (View.tasks (view (deleteCategoryApi (success tt) "5" sampleWorld)))
     = ["5"; "5"; ""; ""; "5"].
Proof.
  split; [reflexivity|].
  destruct (deleted_category_is_orphaned (success tt) "5" sampleWorld eq_refl)
    as (-> & _ & ->).
  split; reflexivity.
Defined.

(* ================================================================= *)
(** ** Loading *)

Lemma settle_result {D : Type} (reply : Fetched D) (br1 br2 : Browser) :
  (settle reply br1).2 = (settle reply br2).2.
Proof.
  unfold settle. destruct reply as [reason|res]; [reflexivity|].
  destruct (status res =? 401); [reflexivity|].
  destruct (json res) as [reason|parsed]; [reflexivity|].
  destruct (negb (ok res)); reflexivity.
Qed.

Lemma settle_data {D : Type} (reply : Fetched D) (br : Browser) (d : D) :
  (settle reply br).2 = inr d -> (settle reply br).1 = br.
Proof.
  unfold settle. destruct reply as [reason|res]; [discriminate|].
  destruct (status res =? 401); [discriminate|].
  destruct (json res) as [reason|parsed]; [discriminate|].
  destruct (negb (ok res)); [discriminate | reflexivity].
Qed.

(** What an answer does to the browser: nothing, or the end of the session
    when its status is 401. *)
Lemma settle_browser {D : Type} (reply : Fetched D) :
  exists expired : bool, forall br,
    (settle reply br).1
    = if expired
      then {| localStorage := delete "tf_user" (delete "tf_token" (localStorage br));
              hash := "/login" |}
      else br.
Proof.
  unfold settle. destruct reply as [reason|res]; [now exists false|].
  destruct (status res =? 401); [now exists true|].
  exists false. intros br.
  destruct (json res) as [reason|parsed]; [reflexivity|].
  destruct (negb (ok res)); reflexivity.
Qed.

(** The browser after two answers does not depend on which came first. *)
Lemma settle_commute {D E : Type} (r1 : Fetched D) (r2 : Fetched E) (br : Browser) :
  (settle r2 (settle r1 br).1).1 = (settle r1 (settle r2 br).1).1.
Proof.
  destruct (settle_browser r1) as [e1 H1], (settle_browser r2) as [e2 H2].
  rewrite !H1, !H2. destruct e1, e2; reflexivity.
Qed.

Example loadData_sample :
  let '(w, loading) := loadData utc true (success [milkWire; bareWire]) (success [workCat])
                         sampleWorld in
  List.map Task.id (View.tasks (view w)) = ["7"; "8"]
  /\ List.map Cat.name (View.categories (view w)) = ["Errands"]
  /\ loading = false.
Proof. vm_compute. auto. Qed.

(** X15: [loadData] replaces the tasks and the categories together or not
    at all.  When both requests succeed the tasks are the normalized tasks
    of the one answer and the categories the normalized categories of the
    other, in the order of the answers, and nothing is shown; when either
    fails both lists stay as they were and one error is shown, never an
    empty one.  [pageLoading] is off at the end, and the browser and the
    lists do not depend on which answer came first. *)
Theorem loadData_all_or_nothing (parse : string -> JS.num) (tasksFirst : bool)
    (fetchTasks : Request unit -> Fetched (list WireTask.t))
    (fetchCats : Request unit -> Fetched (list WireCat.t))
    (w : World) :
  let w' := (loadData parse tasksFirst fetchTasks fetchCats w).1 in
  (loadData parse tasksFirst fetchTasks fetchCats w).2 = false
  /\ match (request fetchTasks "GET" "/api/tasks" None (browser w)).2,
           (request fetchCats "GET" "/api/categories" None (browser w)).2 with
     | inr t, inr c =>
         View.tasks (view w') = List.map (normalizeTask parse) t
         /\ View.categories (view w') = List.map normalizeCat c
         /\ toasts w' = toasts w
         /\ browser w' = browser w
     | _, _ =>
         view w' = view w
         /\ exists e, e <> "" /\ toasts w' = toasts w ++ [ToastError e]
     end
  /\ View.filter (view w') = View.filter (view w)
  /\ browser w' = browser (loadData parse (negb tasksFirst) fetchTasks fetchCats w).1
  /\ view w' = view (loadData parse (negb tasksFirst) fetchTasks fetchCats w).1.
Proof.
  cbv zeta. rewrite !request_settle. unfold loadData.
  set (rt := fetchTasks (fetchArgs "GET" "/api/tasks" None (browser w))).
  set (rc := fetchCats (fetchArgs "GET" "/api/categories" None (browser w))).
  pose proof (settle_commute rt rc (browser w)) as Hc.
  pose proof (settle_result rt (browser w) (settle rc (browser w)).1) as Ht.
  pose proof (settle_result rc (browser w) (settle rt (browser w)).1) as Hcat.
  pose proof (settle_data rt (browser w)) as Dt.
  pose proof (settle_data rc (browser w)) as Dc.
  assert (Hne : forall e, JS.or_else (Some e) "加载数据失败，请检查后端是否启动" <> "").
  { intros e. simpl. destruct (String.eqb_spec e ""); [discriminate | assumption]. }
  destruct (settle rt (browser w)) as [b1 r1] eqn:E1.
  destruct (settle rc (browser w)) as [b2 r2] eqn:E2.
  simpl in Hc, Ht, Hcat, Dt, Dc.
  destruct (settle rc b1) as [b12 r12] eqn:E12.
  destruct (settle rt b2) as [b21 r21] eqn:E21.
  simpl in Hc, Ht, Hcat. subst r12 r21 b21.
  destruct tasksFirst; simpl; rewrite ?E1, ?E2, ?E12, ?E21;
    destruct r1 as [e1|t], r2 as [e2|c]; simpl;
    repeat match goal with
           | |- _ /\ _ => split
           | |- exists e, _ => eexists; split; [apply Hne | reflexivity]
           | |- _ => reflexivity
           end.
  - rewrite (Dt t eq_refl) in E12. rewrite E2 in E12.
    injection E12 as <-. now apply (Dc c).
  - rewrite (Dt t eq_refl) in E12. rewrite E2 in E12.
    injection E12 as <-. now apply (Dc c).
Qed.

(* ================================================================= *)
(** ** More on the derived view *)

Lemma visibleList_sorted_filter (now : Z) (filter priorityF searchQ sortBy : string)
    (l : list Task.t) :
  visibleList now filter priorityF searchQ sortBy l
  = JS.sort (compareTasks sortBy) (List.filter (shown now filter priorityF searchQ) l).
Proof.
  unfold visibleList.
  rewrite (filter_twice (viewKeeps now filter) (priorityKeeps priorityF)).
  now rewrite filter_twice.
Qed.

Lemma filter_same {A : Type} (p q : A -> bool) (l : list A) :
  (forall x, p x = q x) -> List.filter p l = List.filter q l.
Proof.
  intros H. induction l as [|x l IH]; simpl; [reflexivity|].
  now rewrite H, IH.
Qed.

(** X16: each count of the navigation is the number of tasks that the view
    shows under that key when no priority filter and no search is set,
    whatever the sort key. *)
Theorem nav_count_is_view_length (now : Z) (sortBy : string) (tasks : loc) (h : store)
    (l : list Task.t) (item : NavItem) :
  h !! tasks = Some l ->
  In item (navItems now l) ->
  let '(r, h') := visibleTasks now (key item) "all" "" sortBy tasks h in
  exists out, h' !! r = Some out /\ length out = count item.
Proof.
  intros Hl Hitem.
  destruct (visibleTasks_run now (key item) "all" "" sortBy tasks h l Hl)
    as (r & h' & -> & Hr & _).
  eexists. split; [exact Hr|].
  rewrite (Permutation_length (visibleList_perm now (key item) "all" "" sortBy l)).
  unfold navItems in Hitem. simpl in Hitem.
  destruct Hitem as [<- | [<- | [<- | [<- | []]]]]; simpl;
    f_equal; try apply filter_same; try apply filter_all;
    intros t; unfold shown, viewKeeps, priorityKeeps, searchKeeps; simpl;
    now rewrite !andb_true_r.
Qed.

Lemma nav_count_is_view_length_witness :
  sampleStore !! 1%positive = Some sampleTasks
  /\ In {| key := "pending"; count := 4 |} (navItems sampleNow sampleTasks)
  /\ let '(r, h') := visibleTasks sampleNow "pending" "all" "" "priority" 1%positive sampleStore in
     exists out, h' !! r = Some out /\ length out = 4%nat.
Proof.
  split; [reflexivity|]. split; [vm_compute; auto|].
  apply (nav_count_is_view_length sampleNow "priority" 1%positive sampleStore sampleTasks
           {| key := "pending"; count := 4 |}); [reflexivity | vm_compute; auto].
Defined.

Section Stable.
Context {A : Type} (cmp : A -> A -> JS.num) (P : A -> bool).
Hypothesis equal : forall a b, P a = true -> P b = true -> JS.after (cmp a b) = false.

Lemma sortInsert_stable (x : A) (l : list A) :
  List.filter P (JS.sortInsert cmp x l) = List.filter P (x :: l).
Proof.
  induction l as [|y l IH]; [reflexivity|].
  cbn [JS.sortInsert]. destruct (JS.after (cmp x y)) eqn:E; [|reflexivity].
  cbn [List.filter] in *. rewrite IH.
  destruct (P x) eqn:Px, (P y) eqn:Py; try reflexivity.
  rewrite (equal x y Px Py) in E. discriminate.
Qed.

(** The elements that the comparator does not tell apart keep their
    order. *)
Lemma sort_stable (l : list A) :
  List.filter P (JS.sort cmp l) = List.filter P l.
Proof.
  induction l as [|x l IH]; [reflexivity|].
  cbn [JS.sort]. rewrite sortInsert_stable. cbn [List.filter]. now rewrite IH.
Qed.

End Stable.

Lemma compare_refl (s : string) : String.compare s s = Eq.
Proof.
  pose proof (String.compare_antisym s s) as H.
  destruct (String.compare s s); simpl in H; congruence.
Qed.

Lemma sub_same (a b x : JS.num) :
  numEqb x a = true -> numEqb x b = true -> JS.after (JS.sub b a) = false.
Proof.
  destruct x, a, b; simpl; try discriminate; try reflexivity.
  intros H1 H2. apply Z.eqb_eq in H1, H2. subst. now rewrite Z.sub_diag.
Qed.

Lemma compareTasks_same (sortBy : string) (x a b : Task.t) :
  sameKey sortBy x a = true -> sameKey sortBy x b = true ->
  JS.after (compareTasks sortBy a b) = false.
Proof.
  unfold sameKey, compareTasks. rewrite !truthy_string, !negb_involutive.
  by_sort_key sortBy; try reflexivity.
  - intros Ha Hb. now apply (sub_same _ _ (Task.createdAt x)).
  - intros Ha Hb. now apply (sub_same _ _ (Task.createdAt x)).
  - intros Ha Hb. apply andb_true_iff in Ha, Hb.
    destruct Ha as [Hx Ha], Hb as [_ Hb].
    apply String.eqb_eq in Ha, Hb. rewrite <- Ha, <- Hb.
    apply negb_true_iff in Hx. rewrite Hx.
    unfold JS.localeCompare. now rewrite compare_refl.
  - intros Ha Hb. apply andb_true_iff in Ha, Hb.
    destruct Ha as [Hx Ha], Hb as [_ Hb].
    apply String.eqb_eq in Ha, Hb. rewrite <- Ha, <- Hb.
    apply negb_true_iff in Hx. rewrite Hx.
    unfold JS.localeCompare. now rewrite compare_refl.
  - intros Ha Hb. apply String.eqb_eq in Ha, Hb. rewrite <- Ha, <- Hb.
    destruct (o (Task.priority x)); simpl; [reflexivity|].
    now rewrite Z.sub_diag.
Qed.

(** X17: the sort of the view is stable where the comparator of the sort
    key is consistent on the shown tasks (creation times that are numbers,
    priorities that are high, medium or low, due dates that are empty or of
    the form YYYY-MM-DD with at most one of them empty).  The shown tasks
    that agree in the field the sort key compares (the same creation time,
    the same due date, the same priority) stand in the view in the order
    they have in the task list; and under a sort key that is none of the
    five, the view is the filtered list in its own order. *)
Theorem visibleTasks_stable (now : Z) (filter priorityF searchQ sortBy : string)
    (tasks : loc) (h : store) (l : list Task.t) :
  h !! tasks = Some l ->
  consistentOn sortBy (List.filter (shown now filter priorityF searchQ) l) = true ->
  let '(r, h') := visibleTasks now filter priorityF searchQ sortBy tasks h in
  exists out,
    h' !! r = Some out
    /\ (forall x, List.filter (sameKey sortBy x) out
                  = List.filter (sameKey sortBy x)
                      (List.filter (shown now filter priorityF searchQ) l))
    /\ (knownKey sortBy = false ->
        out = List.filter (shown now filter priorityF searchQ) l).
Proof.
  intros Hl _.
  destruct (visibleTasks_run now filter priorityF searchQ sortBy tasks h l Hl)
    as (r & h' & -> & Hr & _).
  eexists. split; [exact Hr|]. rewrite visibleList_sorted_filter. split.
  - intros x. apply sort_stable. apply compareTasks_same.
  - intros Hk.
    rewrite <- (filter_all (JS.sort _ _)).
    rewrite <- (filter_all (List.filter _ l)) at 2.
    apply sort_stable. intros a b _ _.
    unfold knownKey in Hk. unfold compareTasks.
    repeat (apply orb_false_iff in Hk; destruct Hk as [Hk ?]).
    repeat match goal with H : String.eqb _ _ = false |- _ => rewrite H; clear H end.
    reflexivity.
Qed.

Lemma visibleTasks_stable_witness :
  sampleStore !! 1%positive = Some sampleTasks
  /\ consistentOn "priority" (List.filter (shown sampleNow "all" "all" "") sampleTasks) = true
  /\ let '(r, h') := visibleTasks sampleNow "all" "all" "" "priority" 1%positive sampleStore in
     List.map Task.id <$> (h' !! r) = Some ["2"; "4"; "3"; "5"; "1"]
     /\ exists out,
          h' !! r = Some out
          /\ (forall x, List.filter (sameKey "priority" x) out
                        = List.filter (sameKey "priority" x)
                            (List.filter (shown sampleNow "all" "all" "") sampleTasks))
          /\ (knownKey "priority" = false ->
              out = List.filter (shown sampleNow "all" "all" "") sampleTasks).
Proof.
  split; [reflexivity|]. split; [reflexivity|].
  pose proof (visibleTasks_stable sampleNow "all" "all" "" "priority" 1%positive
                sampleStore sampleTasks eq_refl eq_refl) as H.
  destruct (visibleTasks sampleNow "all" "all" "" "priority" 1%positive sampleStore)
    as [r h'] eqn:E.
  split; [|exact H].
  vm_compute in E. injection E as <- <-. vm_compute. reflexivity.
Defined.

(* ================================================================= *)
(** ** The due-date flags *)

Lemma append_cons_nonempty (a : string) (c : ascii) (b : string) :
  exists c' r, a +:+ String c b = String c' r.
Proof. destruct a as [|c' a]; simpl; eauto. Qed.

Lemma today_nonempty (now : Z) : today now <> "".
Proof.
  unfold today, JS.toISOString, JS.slice0.
  destruct (JS.civilFromDays (now / JS.msPerDay)) as [[y m] d].
  destruct (append_cons_nonempty
              (if (0 <=? y) && (y <=? 9999) then JS.pad 4 y
               else (if y <? 0 then "-" else "+") +:+ JS.pad 6 (Z.abs y))
              "-" (JS.pad 2 m +:+ "-" +:+ JS.pad 2 d +:+ "T"
                   +:+ JS.pad 2 (now mod JS.msPerDay / 3600000) +:+ ":"
                   +:+ JS.pad 2 (now mod JS.msPerDay / 60000 mod 60) +:+ ":"
                   +:+ JS.pad 2 (now mod JS.msPerDay / 1000 mod 60) +:+ "."
                   +:+ JS.pad 3 (now mod JS.msPerDay mod 1000) +:+ "Z"))
    as (c & r & E).
  change ("-" +:+ ?x) with (String "-" x). cbv zeta.
  change (String.append ?a (String "-" ?b)) with (a +:+ String "-" b).
  rewrite E. simpl. discriminate.
Qed.

Lemma disjoint_filters_length {A : Type} (p q : A -> bool) (l : list A) :
  (forall x, p x = true -> q x = false) ->
  (length (List.filter p l) + length (List.filter q l) <= length l)%nat.
Proof.
  intros H. induction l as [|x l IH]; simpl; [lia|].
  destruct (p x) eqn:Ep; [rewrite (H x Ep)|destruct (q x)]; simpl; lia.
Qed.

(** X18: the due-date flags.  A task without a due date is neither due
    today nor overdue nor soon; a due date that is overdue is not today's;
    so the count of today and the count of overdue tasks together never
    exceed the total. *)
Theorem due_flags_exclusive (parse : string -> JS.num) (now : Z) (tasks : list Task.t) :
  isToday now "" = false
  /\ isOverdue now "" = false
  /\ isSoon parse now "" = false
  /\ (forall s, isOverdue now s = true -> isToday now s = false)
  /\ exists total dueToday pending done overdue : nat,
       List.map count (navItems now tasks) = [total; dueToday; pending; done]
       /\ List.map value (statsCards now tasks) = [total; pending; done; overdue]
       /\ (dueToday + overdue <= total)%nat.
Proof.
  assert (X : forall s, isOverdue now s = true -> isToday now s = false).
  { intros s H. unfold isOverdue in H. apply andb_true_iff in H. destruct H as [_ H].
    unfold JS.str_lt in H. unfold isToday. apply String.eqb_neq. intros ->.
    rewrite compare_refl in H. discriminate. }
  split; [|split; [reflexivity|split; [reflexivity|split; [exact X|]]]].
  - unfold isToday. apply String.eqb_neq. intros H. now apply (today_nonempty now).
  - do 5 eexists. split; [reflexivity|]. split; [reflexivity|].
    apply disjoint_filters_length. intros t H.
    apply andb_false_iff. right.
    destruct (isOverdue now (Task.due t)) eqn:E; [|reflexivity].
    apply X in E. congruence.
Qed.

(* ================================================================= *)
(** ** Category ids through the round trip *)

Lemma digit_pretty_char (d : N) :
  (d < 10)%N -> JS.digit 10 (pretty_N_char d) = Some (Z.of_N d).
Proof.
  intros H.
  assert (d = 0 \/ d = 1 \/ d = 2 \/ d = 3 \/ d = 4 \/ d = 5 \/ d = 6 \/ d = 7
          \/ d = 8 \/ d = 9)%N as C by lia.
  repeat (destruct C as [-> | C]; [reflexivity|]). now subst.
Qed.

Lemma digits_pretty_go (x : N) :
  (0 < x)%N -> forall s,
  JS.digits 10 None (pretty_N_go x s) = JS.digits 10 (Some (Z.of_N x)) s.
Proof.
  induction (N.lt_wf_0 x) as [x _ IH]. intros Hx s.
  rewrite pretty_N_go_step by exact Hx.
  pose proof (N.div_mod x 10 ltac:(discriminate)) as Hdm.
  pose proof (N.mod_lt x 10 ltac:(discriminate)) as Hm.
  destruct (N.eq_dec (x `div` 10) 0) as [E|E].
  - rewrite E, pretty_N_go_0. cbn [JS.digits].
    rewrite (digit_pretty_char _ Hm). simpl default.
    f_equal. f_equal. lia.
  - rewrite IH by (try apply N.div_lt; lia). cbn [JS.digits].
    rewrite (digit_pretty_char _ Hm). simpl default.
    f_equal. f_equal. lia.
Qed.

(** The decimal digits of a positive number start with a digit from 1
    to 9. *)
Lemma pretty_go_head (x : N) :
  (0 < x)%N -> forall s,
  exists d r, (1 <= d <= 9)%N /\ pretty_N_go x s = String (pretty_N_char d) r.
Proof.
  induction (N.lt_wf_0 x) as [x _ IH]. intros Hx s.
  rewrite pretty_N_go_step by exact Hx.
  pose proof (N.div_mod x 10 ltac:(discriminate)) as Hdm.
  pose proof (N.mod_lt x 10 ltac:(discriminate)) as Hm.
  destruct (N.eq_dec (x `div` 10) 0) as [E|E].
  - rewrite E, pretty_N_go_0. exists (x `mod` 10)%N. eexists. split; [lia | reflexivity].
  - apply IH; [apply N.div_lt; lia | lia].
Qed.

Lemma parseInt_digit_head (d : N) (r : string) :
  (1 <= d <= 9)%N ->
  JS.parseInt (String (pretty_N_char d) r)
  = match JS.digits 10 None (String (pretty_N_char d) r) with
    | Some n => JS.Int (1 * n)
    | None => JS.NaN
    end
  /\ JS.parseInt (String "-" (String (pretty_N_char d) r))
     = match JS.digits 10 None (String (pretty_N_char d) r) with
       | Some n => JS.Int (-1 * n)
       | None => JS.NaN
       end.
Proof.
  intros H.
  assert (d = 1 \/ d = 2 \/ d = 3 \/ d = 4 \/ d = 5 \/ d = 6 \/ d = 7
          \/ d = 8 \/ d = 9)%N as C by lia.
  repeat (destruct C as [-> | C]; [split; reflexivity|]). subst. split; reflexivity.
Qed.

Lemma parseInt_pretty (n : Z) : JS.parseInt (pretty n) = JS.Int n.
Proof.
  destruct n as [|p|p]; [reflexivity| |].
  - change (pretty (Z.pos p)) with (pretty_N_go (N.pos p) "").
    destruct (pretty_go_head (N.pos p) ltac:(lia) "") as (d & r & Hd & E).
    rewrite E. rewrite (proj1 (parseInt_digit_head d r Hd)). rewrite <- E.
    rewrite digits_pretty_go by lia. simpl JS.digits. f_equal.
  - change (pretty (Z.neg p)) with ("-" +:+ pretty_N_go (N.pos p) "").
    destruct (pretty_go_head (N.pos p) ltac:(lia) "") as (d & r & Hd & E).
    rewrite E. change ("-" +:+ ?s) with (String "-" s).
    rewrite (proj2 (parseInt_digit_head d r Hd)). rewrite <- E.
    rewrite digits_pretty_go by lia. simpl JS.digits. f_equal.
Qed.

Example category_round_trip_sample :
  Payload.category_id (roundTrip utc milkWire) = Some (JS.Int 5)
  /\ Payload.category_id (roundTrip utc bareWire) = None.
Proof. vm_compute. auto. Qed.

(** X19: the category of a task survives the round trip through
    [normalizeTask] and [taskToPayload]: a wire category id that is a safe
    integer other than 0 comes back as the same number, read back by
    [parseInt] from the decimal string the client holds; a null category id
    and the id 0 come back as null. *)
Theorem category_round_trip (parse : string -> JS.num) (w : WireTask.t) :
  (forall n, WireTask.category_id w = Some n -> Z.abs n <= JS.MAX_SAFE_INTEGER) ->
  Payload.category_id (roundTrip parse w)
  = match WireTask.category_id w with
    | Some n => if n =? 0 then None else Some (JS.Int n)
    | None => None
    end.
Proof.
  intros _.
  unfold roundTrip, taskToPayload, formOfTask, normalizeTask.
  cbn [Payload.category_id TaskForm.category Task.category].
  destruct (WireTask.category_id w) as [n|]; [|reflexivity].
  cbn [JS.truthy_num JS.of_num JS.to_string JS.num_to_string].
  destruct (Z.eqb_spec n 0) as [->|Hn]; [reflexivity|].
  cbn [negb]. rewrite truthy_string.
  destruct (String.eqb_spec (pretty n) "") as [E|_].
  - exfalso. destruct n as [|p|p]; [contradiction| |].
    + change (pretty (Z.pos p)) with (pretty_N_go (N.pos p) "") in E.
      destruct (pretty_go_head (N.pos p) ltac:(lia) "") as (d & r & _ & E').
      congruence.
    + change (pretty (Z.neg p)) with (String "-" (pretty_N_go (N.pos p) "")) in E.
      discriminate.
  - cbn [negb]. now rewrite parseInt_pretty.
Qed.

Lemma category_round_trip_witness :
  (forall n, WireTask.category_id milkWire = Some n -> Z.abs n <= JS.MAX_SAFE_INTEGER)
  /\ Payload.category_id (roundTrip utc milkWire) = Some (JS.Int 5).
Proof.
  assert (H : forall n, WireTask.category_id milkWire = Some n
                        -> Z.abs n <= JS.MAX_SAFE_INTEGER).
  { intros n E. injection E as <-. vm_compute. discriminate. }
  split; [exact H|].
  exact (category_round_trip utc milkWire H).
Defined.

(* ================================================================= *)
(** ** Categories across operations *)

Lemma pretty_nonempty (n : Z) : pretty n <> "".
Proof.
  destruct n as [|p|p]; [discriminate| |].
  - change (pretty (Z.pos p)) with (pretty_N_go (N.pos p) "").
    destruct (pretty_go_head (N.pos p) ltac:(lia) "") as (d & r & _ & E).
    rewrite E. discriminate.
  - change (pretty (Z.neg p)) with (String "-" (pretty_N_go (N.pos p) "")).
    discriminate.
Qed.

Lemma find_none {A : Type} (p : A -> bool) (l : list A) :
  Forall (fun x => p x = false) l -> List.find p l = None.
Proof. induction 1 as [|x l Hx _ IH]; simpl; [reflexivity|]. now rewrite Hx. Qed.

(** X20: what [normalizeTask] guarantees of its result: the priority and
    the status are never empty; the description and the due date are empty
    exactly when the wire value is missing or empty; the category is empty
    exactly when the wire task has no category id or the id 0 (any other id
    gives a string that is not empty); the title is the wire title. *)
Theorem normalizeTask_result (parse : string -> JS.num) (w : WireTask.t) :
  let c := normalizeTask parse w in
  Task.priority c <> ""
  /\ Task.status c <> ""
  /\ (Task.category c = "" <->
      WireTask.category_id w = None \/ WireTask.category_id w = Some 0)
  /\ (Task.due c = "" <-> JS.truthy (WireTask.due_date w) = false)
  /\ (Task.desc c = "" <-> JS.truthy (WireTask.desc w) = false)
  /\ Task.title c = WireTask.title w.
Proof.
  cbv zeta. unfold normalizeTask. cbn.
  assert (D : forall (o : option string) (d : string), d <> "" -> JS.or_else o d <> "").
  { intros [s|] d Hd; simpl; [|exact Hd]. destruct (String.eqb_spec s ""); assumption. }
  assert (Em : forall o : option string, JS.or_else o "" = "" <-> JS.truthy o = false).
  { intros [s|]; simpl; [|tauto].
    destruct (String.eqb_spec s ""); simpl; split; congruence. }
  split; [apply D; discriminate|]. split; [apply D; discriminate|].
  split; [|split; [apply Em|split; [apply Em | reflexivity]]].
  destruct (WireTask.category_id w) as [n|]; simpl; [|tauto].
  destruct (Z.eqb_spec n 0) as [->|Hn]; simpl; [tauto|].
  split.
  - intros E. now destruct (pretty_nonempty n).
  - intros [H|H]; [discriminate|]. injection H as ->. contradiction.
Qed.

(** X21: after a category deletion that succeeds, the dialog for a new task
    never preselects the deleted category: it takes the active filter when
    that is another category, else the first category left, else none. *)
Theorem new_task_skips_deleted_category (fetch : Request unit -> Fetched unit)
    (id : string) (w : World) :
  (request fetch "DELETE" ("/api/categories/" +:+ id) None (browser w)).2 = inr tt ->
  id <> "" ->
  let w' := openTaskDlg None (deleteCategoryApi fetch id w) in
  TaskForm.category (View.taskForm (view w')) <> id
  /\ TaskDlg.isEdit (View.taskDlg (view w')) = false
  /\ TaskDlg.show (View.taskDlg (view w')) = true
  /\ TaskForm.title (View.taskForm (view w')) = ""
  /\ TaskForm.priority (View.taskForm (view w')) = "medium"
  /\ TaskForm.status (View.taskForm (view w')) = "pending".
Proof.
  intros H Hid. cbv zeta. unfold deleteCategoryApi.
  destruct (request _ _ _ _ _) as [br [e|[]]] eqn:E; simpl in H; [discriminate|].
  clear E H. unfold openTaskDlg. cbn [view].
  set (cats := List.filter (fun c => negb (String.eqb (Cat.id c) id))
                           (View.categories (view w))).
  assert (Hfirst : match cats with
                   | c :: _ => JS.or_else (Some (Cat.id c)) ""
                   | [] => ""
                   end <> id).
  { assert (Hc : Forall (fun c => Cat.id c <> id) cats).
    { apply Forall_forall. intros c Hc. apply list_elem_of_In in Hc.
      unfold cats in Hc. apply filter_In in Hc. destruct Hc as [_ Hc].
      apply negb_true_iff in Hc. now apply String.eqb_neq. }
    destruct cats as [|c cats']; [congruence|].
    inversion Hc; subst. simpl.
    destruct (String.eqb_spec (Cat.id c) ""); congruence. }
  destruct (String.eqb_spec (View.filter (View.setCategories cats (view w))) id) as [Ef|Ef].
  - simpl. split; [exact Hfirst | auto].
  - simpl in Ef. simpl.
    destruct (negb (String.eqb (View.filter (view w)) "all")
              && negb (String.eqb (View.filter (view w)) "today")
              && negb (String.eqb (View.filter (view w)) "pending")
              && negb (String.eqb (View.filter (view w)) "done")); simpl;
      (split; [assumption | auto]).
Qed.

Lemma new_task_skips_deleted_category_witness :
  (request (success tt) "DELETE" ("/api/categories/" +:+ "5") (None : option unit)
     (browser sampleWorld)).2 = inr tt
  /\ "5" <> ""
  /\ TaskForm.category (View.taskForm (view
       (openTaskDlg None (deleteCategoryApi (success tt) "5" sampleWorld)))) <> "5".
Proof.
  split; [reflexivity|]. split; [discriminate|].
  apply (new_task_skips_deleted_category (success tt) "5" sampleWorld eq_refl).
  discriminate.
Defined.

Example new_task_after_delete :
  TaskForm.category (View.taskForm (view
    (openTaskDlg None (deleteCategoryApi (success tt) "5" sampleWorld)))) = "6".
Proof. reflexivity. Qed.

Example pageTitle_samples :
  pageTitle sampleCats "5" = "Work"
  /\ pageTitle sampleCats "today" = "今日任务"
  /\ pageTitle sampleCats "7" = "任务".
Proof. vm_compute. auto. Qed.

(** X22: the title follows the deletion of the active category.  While the
    filter is the id of a category the title is the name of the first
    category with that id; once that category is deleted with success the
    filter is 'all' and, no category having the id 'all', the title is the
    title of the view of all tasks. *)
Theorem pageTitle_after_delete (fetch : Request unit -> Fetched unit) (w : World) :
  (request fetch "DELETE" ("/api/categories/" +:+ View.filter (view w)) None (browser w)).2
    = inr tt ->
  Forall (fun c => Cat.id c <> "all") (View.categories (view w)) ->
  let w' := deleteCategoryApi fetch (View.filter (view w)) w in
  pageTitle (View.categories (view w')) (View.filter (view w')) = "全部任务"
  /\ forall cat, getCat (View.categories (view w)) (View.filter (view w)) = Some cat ->
       pageTitle (View.categories (view w)) (View.filter (view w)) = Cat.name cat.
Proof.
  intros H Hall. cbv zeta. split.
  - destruct (deleteCategoryApi_view fetch (View.filter (view w)) w H) as (-> & -> & _).
    rewrite String.eqb_refl. unfold pageTitle.
    rewrite find_none; [reflexivity|].
    apply Forall_filter. eapply Forall_impl; [exact Hall|].
    intros c Hc. now apply String.eqb_neq.
  - intros cat Hcat. unfold pageTitle. unfold getCat in Hcat. now rewrite Hcat.
Qed.

Lemma pageTitle_after_delete_witness :
  (request (success tt) "DELETE" ("/api/categories/" +:+ View.filter (view sampleWorld))
     (None : option unit) (browser sampleWorld)).2 = inr tt
  /\ Forall (fun c => Cat.id c <> "all") (View.categories (view sampleWorld))
  /\ pageTitle (View.categories (view (deleteCategoryApi (success tt)
                   (View.filter (view sampleWorld)) sampleWorld)))
        (View.filter (view (deleteCategoryApi (success tt)
                   (View.filter (view sampleWorld)) sampleWorld))) = "全部任务".
Proof.
  assert (Hall : Forall (fun c => Cat.id c <> "all") (View.categories (view sampleWorld))).
  { repeat (apply List.Forall_cons; [discriminate|]). apply List.Forall_nil. }
  split; [reflexivity|]. split; [exact Hall|].
  apply (pageTitle_after_delete (success tt) sampleWorld eq_refl Hall).
Defined.

(* ================================================================= *)
(** ** Mutations and the browser *)

(** X23: a mutation touches the storage and the location only through its
    request: the browser after the mutation is the browser after the
    request, so it is the browser as it was whenever the request succeeds,
    and whenever it fails with a status other than 401. *)
Theorem mutation_browser_frame (parse : string -> JS.num) (m : Mutation) (w : World) :
  browser (perform parse m w) = (outcome m w).1
  /\ ((outcome m w).2 = inr tt -> browser (perform parse m w) = browser w)
  /\ (hash (browser (perform parse m w)) = hash (browser w)
      \/ hash (browser (perform parse m w)) = "/login"
         /\ localStorage (browser (perform parse m w)) !! "tf_token" = None).
Proof.
  assert (F : forall (B D : Type) (fetch : Request B -> Fetched D)
                     (method path : string) (body : option B) (br : Browser),
    ((forget (request fetch method path body br)).2 = inr tt ->
     (request fetch method path body br).1 = br)
    /\ (hash (request fetch method path body br).1 = hash br
        \/ hash (request fetch method path body br).1 = "/login"
           /\ localStorage (request fetch method path body br).1 !! "tf_token" = None)).
  { intros B D fetch method path body br. split.
    - intros H. apply forget_data in H. destruct H as [d H].
      destruct (request fetch method path body br) as [br' r] eqn:E.
      simpl in H. subst r. now apply request_data_frame in E.
    - rewrite request_settle.
      destruct (settle_browser (fetch (fetchArgs method path body br))) as [[|] ->].
      + right. split; [reflexivity|]. simpl.
        rewrite lookup_delete_ne by discriminate. apply lookup_delete_eq.
      + now left. }
  assert (E : browser (perform parse m w) = (outcome m w).1).
  { destruct m as [fetch id cur | fetch id | fetch | fetch | fetch id]; simpl.
    - unfold toggleTaskApi. destruct (request _ _ _ _ _) as [br [e|d]]; reflexivity.
    - destruct (request _ _ _ _ _) as [br [e|d]]; reflexivity.
    - unfold saveTaskApi. simpl.
      destruct (TaskDlg.isEdit (View.taskDlg (view w)));
        destruct (request _ _ _ _ _) as [br [e|d]]; reflexivity.
    - unfold saveCatApi. simpl. destruct (request _ _ _ _ _) as [br [e|d]]; reflexivity.
    - unfold deleteCategoryApi. destruct (request _ _ _ _ _) as [br [e|d]]; reflexivity. }
  split; [exact E|]. rewrite E.
  destruct m as [fetch id cur | fetch id | fetch | fetch | fetch id]; simpl;
    try apply F.
  destruct (TaskDlg.isEdit (View.taskDlg (view w))); apply F.
Qed.
